(** * HTAN spatial analysis notebook: the queries and the cells that run them

    The notebook [Analyzing_HTAN_spatial_data_with_BigQuery_geospatial_analytics]
    builds five SQL statements and hands them to BigQuery.  This development
    embeds each statement as a function on tables (lists of rows, SQL's bags),
    with SQL's three-valued logic written out, and each code cell as a
    computation over the notebook's variables and the remote project.

    FLOAT64 columns and literals are binary64 floats; a NULL is [None].  The
    geography functions of the engine (ST_GeogPoint, ST_DWithin, ST_Distance,
    ST_ClusterDBSCAN) and the order it returns the rows of a table in when a
    statement asks for none are not code of the notebook: they are the
    operations of the class [GeoEngine], and what is assumed of the geography
    functions is the class [GeoLaws]. *)

From Stdlib Require Import ZArith List Floats Bool Lia String Permutation Sorted.
From stdpp Require Import gmap strings pretty.
Import ListNotations.

Set Warnings "-inexact-float".
Local Open Scope string_scope.

(** ** SQL scalars *)

Module SQL.

(** A BOOL expression evaluates to TRUE, FALSE or NULL. *)
Definition AND (a b : option bool) : option bool :=
  match a, b with
  | Some false, _ => Some false
  | _, Some false => Some false
  | Some true, Some true => Some true
  | _, _ => None
  end.

Definition OR (a b : option bool) : option bool :=
  match a, b with
  | Some true, _ => Some true
  | _, Some true => Some true
  | Some false, Some false => Some false
  | _, _ => None
  end.

(** [a > b] and [a < b] on FLOAT64. *)
Definition gt (a b : option float) : option bool :=
  match a, b with
  | Some x, Some y => Some (PrimFloat.ltb y x)
  | _, _ => None
  end.

Definition lt (a b : option float) : option bool :=
  match a, b with
  | Some x, Some y => Some (PrimFloat.ltb x y)
  | _, _ => None
  end.

(** [a / b] on FLOAT64 (the notebook only divides by a non-zero literal). *)
Definition div (a b : option float) : option float :=
  match a, b with
  | Some x, Some y => Some (PrimFloat.div x y)
  | _, _ => None
  end.

(** [a = b] on STRING. *)
Definition eqs (a b : option string) : option bool :=
  match a, b with
  | Some x, Some y => Some (String.eqb x y)
  | _, _ => None
  end.

(** A literal is never NULL. *)
Definition lit {A} (a : A) : option A := Some a.

(** [IF(c, a, b)]: [a] when [c] is TRUE, [b] when it is FALSE or NULL. *)
Definition IF {A} (c : option bool) (a b : A) : A :=
  match c with
  | Some true => a
  | _ => b
  end.

(** WHERE and ON keep a row only when the condition is TRUE. *)
Definition holds (c : option bool) : bool :=
  match c with
  | Some true => true
  | _ => false
  end.

Definition WHERE {A} (c : A -> option bool) (t : list A) : list A :=
  List.filter (fun r => holds (c r)) t.

(** [t1 JOIN t2 ON c]: every pair of rows on which [c] is TRUE. *)
Definition JOIN {A B} (c : A -> B -> option bool) (t1 : list A) (t2 : list B)
  : list (A * B) :=
  flat_map (fun a => map (pair a) (List.filter (fun b => holds (c a b)) t2)) t1.

(** [COUNTIF(c)] over the rows of a group. *)
Definition COUNTIF {A} (c : A -> option bool) (g : list A) : Z :=
  Z.of_nat (length (List.filter (fun r => holds (c r)) g)).

End SQL.

(** ** The source table [isb-cgc-bq.HTAN.imaging_level4_HMS_mel_mask_current]

    Only the columns the notebook reads.  Every column is nullable. *)

Module HTAN.
Record row : Type := {
  CellID : option Z;
  X_centroid : option float;
  Y_centroid : option float;
  SOX10_cellRingMask : option float;
  S100B_cellRingMask : option float;
  CD63_cellRingMask : option float;
  HTAN_Biospecimen_ID : option string
}.
End HTAN.

(** ** Conditions the statements spell out *)

(** [HTAN_Biospecimen_ID = 'HTA7_1_3'] *)
Definition of_biospecimen (r : HTAN.row) : option bool :=
  SQL.eqs (HTAN.HTAN_Biospecimen_ID r) (SQL.lit "HTA7_1_3").

(** [X_centroid > 23076.9 AND X_centroid < 30384.6
     AND Y_centroid > 9615.3 AND Y_centroid < 15000] *)
Definition in_region (x y : option float) : option bool :=
  SQL.AND (SQL.AND (SQL.AND (SQL.gt x (SQL.lit 23076.9%float))
                            (SQL.lt x (SQL.lit 30384.6%float)))
                   (SQL.gt y (SQL.lit 9615.3%float)))
          (SQL.lt y (SQL.lit 15000%float)).

(** What the claims call "strictly inside the rectangle". *)
Definition strictly_inside (x y : option float) : Prop :=
  exists a b, x = Some a /\ y = Some b /\
    PrimFloat.ltb 23076.9%float a = true /\ PrimFloat.ltb a 30384.6%float = true /\
    PrimFloat.ltb 9615.3%float b = true /\ PrimFloat.ltb b 15000%float = true.

(** What the claims call "x > t" on a nullable column. *)
Definition exceeds (v : option float) (t : float) : Prop :=
  exists x, v = Some x /\ PrimFloat.ltb t x = true.

(** ** The engine's geography functions *)

Class GeoEngine : Type := {
  geography : Type;
  (** [ST_GEOGPOINT(longitude, latitude)] *)
  ST_GeogPoint : float -> float -> geography;
  (** [ST_DWITHIN(g1, g2, distance)] *)
  ST_DWithin : geography -> geography -> float -> bool;
  (** [ST_DISTANCE(g1, g2)], in meters *)
  ST_Distance : geography -> geography -> float;
  (** [ST_CLUSTERDBSCAN(g, epsilon, minimum_geographies) OVER (...)]: the
      cluster number of the [i]-th row of the window, NULL for noise. *)
  ST_ClusterDBSCAN : list (option geography) -> float -> Z -> nat -> option Z;
  (** The positions, in the order the engine returns them, of the rows of a
      table of the given size when the statement asks for no order: what
      decides which rows a [LIMIT] without [ORDER BY] keeps. *)
  scan_order : nat -> list nat
}.

(** What the engine's documentation promises and the claims rely on. *)
Class GeoLaws (E : GeoEngine) : Prop := {
  ST_DWithin_sym : forall g1 g2 d, ST_DWithin g1 g2 d = ST_DWithin g2 g1 d;
  ST_DWithin_refl : forall g d, PrimFloat.leb 0%float d = true -> ST_DWithin g g d = true;
  ST_Distance_refl : forall g, ST_Distance g g = 0%float
}.

Module Geo.
Section Lifted.
Context `{E : GeoEngine}.

(** The functions return NULL as soon as one argument is NULL. *)
Definition GeogPoint (x y : option float) : option geography :=
  match x, y with
  | Some a, Some b => Some (ST_GeogPoint a b)
  | _, _ => None
  end.

Definition DWithin (g1 g2 : option geography) (d : option float) : option bool :=
  match g1, g2, d with
  | Some a, Some b, Some r => Some (ST_DWithin a b r)
  | _, _, _ => None
  end.

Definition Distance (g1 g2 : option geography) : option float :=
  match g1, g2 with
  | Some a, Some b => Some (ST_Distance a b)
  | _, _ => None
  end.

(** [ST_GeogPoint(X_centroid/368570, Y_centroid/368570)] *)
Definition rescaled_point (x y : option float) : option geography :=
  GeogPoint (SQL.div x (SQL.lit 368570%float)) (SQL.div y (SQL.lit 368570%float)).
End Lifted.
End Geo.

(** ** Cell 12: the classification statement *)

Module Classification.

Record row : Type := {
  CellID : option Z;
  X_centroid : option float;
  Y_centroid : option float;
  celltype : string
}.

(** The [IF (...) AS celltype] column of the CTE [cells]. *)
Definition celltype_of (r : HTAN.row) : string :=
  SQL.IF (SQL.AND (SQL.gt (HTAN.SOX10_cellRingMask r) (SQL.lit 3704.5%float))
                  (SQL.OR (SQL.gt (HTAN.S100B_cellRingMask r) (SQL.lit 7589.48%float))
                          (SQL.gt (HTAN.CD63_cellRingMask r) (SQL.lit 570.68%float))))
         "Tumor" "Other".

Definition select (r : HTAN.row) : row :=
  {| CellID := HTAN.CellID r;
     X_centroid := HTAN.X_centroid r;
     Y_centroid := HTAN.Y_centroid r;
     celltype := celltype_of r |}.

(** [WITH cells AS (SELECT ... FROM source WHERE HTAN_Biospecimen_ID = 'HTA7_1_3')] *)
Definition cells (source : list HTAN.row) : list row :=
  map select (SQL.WHERE of_biospecimen source).

(** [SELECT CellID, X_centroid, Y_centroid, celltype FROM cells WHERE ...] *)
Definition query (source : list HTAN.row) : list row :=
  SQL.WHERE (fun c => in_region (X_centroid c) (Y_centroid c)) (cells source).

End Classification.

(** ** Cell 17: the pairwise-proximity statement *)

Module Geodat.
Section Rows.
Context `{E : GeoEngine}.

Record row : Type := {
  CellID : option Z;
  X_centroid : option float;
  Y_centroid : option float;
  celltype : string;
  p : option geography
}.

(** The [IF (...) AS celltype] column of the CTE [geodat]. *)
Definition celltype_of (r : HTAN.row) : string :=
  SQL.IF (SQL.AND (SQL.gt (HTAN.SOX10_cellRingMask r) (SQL.lit 3704.5%float))
                  (SQL.OR (SQL.gt (HTAN.S100B_cellRingMask r) (SQL.lit 7589.48%float))
                          (SQL.gt (HTAN.CD63_cellRingMask r) (SQL.lit 570.68%float))))
         "Tumor" "Other".

Definition select (r : HTAN.row) : row :=
  {| CellID := HTAN.CellID r;
     X_centroid := HTAN.X_centroid r;
     Y_centroid := HTAN.Y_centroid r;
     celltype := celltype_of r;
     p := Geo.rescaled_point (HTAN.X_centroid r) (HTAN.Y_centroid r) |}.

(** [WITH geodat AS (SELECT ... FROM source WHERE HTAN_Biospecimen_ID='HTA7_1_3')] *)
Definition geodat (source : list HTAN.row) : list row :=
  map select (SQL.WHERE of_biospecimen source).
End Rows.
End Geodat.

Module Proximity.
Section Rows.
Context `{E : GeoEngine}.

(** The threshold of the ON clause, in meters. *)
Definition threshold : float := 9.29324770787722%float.

Record row : Type := {
  CellID : option Z;
  X_centroid : option float;
  Y_centroid : option float;
  p : option geography;
  celltype : string;
  CellID_1 : option Z;
  X_centroid_1 : option float;
  Y_centroid_1 : option float;
  p_1 : option geography;
  celltype_1 : string;
  Distance : option float
}.

(** The SELECT list over [t1] and [t2]. *)
Definition select (t : Geodat.row * Geodat.row) : row :=
  let (t1, t2) := t in
  {| CellID := Geodat.CellID t1;
     X_centroid := Geodat.X_centroid t1;
     Y_centroid := Geodat.Y_centroid t1;
     p := Geodat.p t1;
     celltype := Geodat.celltype t1;
     CellID_1 := Geodat.CellID t2;
     X_centroid_1 := Geodat.X_centroid t2;
     Y_centroid_1 := Geodat.Y_centroid t2;
     p_1 := Geodat.p t2;
     celltype_1 := Geodat.celltype t2;
     Distance := Geo.Distance (Geodat.p t1) (Geodat.p t2) |}.

(** [ON ST_DWithin(t1.p, t2.p, 9.29324770787722)] *)
Definition on (t1 t2 : Geodat.row) : option bool :=
  Geo.DWithin (Geodat.p t1) (Geodat.p t2) (SQL.lit threshold).

(** [SELECT ... FROM geodat AS t1 JOIN geodat AS t2 ON ...] *)
Definition query (source : list HTAN.row) : list row :=
  map select (SQL.JOIN on (Geodat.geodat source) (Geodat.geodat source)).
End Rows.
End Proximity.

(** ** Cell 23: the neighbour-count statement *)

(** [GROUP BY key]: one group per distinct key, NULL keys grouped together.
    The engine returns the groups in no particular order; here they come in
    the order of the first row of each. *)
Definition GROUP_BY {A K} `{EqDecision K} (key : A -> K) (t : list A)
  : list (K * list A) :=
  map (fun k => (k, List.filter (fun r => bool_decide (key r = k)) t))
      (remove_dups (map key t)).

Module Cellp.
Section Rows.
Context `{E : GeoEngine}.

Record row : Type := {
  CellID : option Z;
  celltype : string;
  CellID_1 : option Z;
  celltype_1 : string
}.

Definition select (r : Proximity.row) : row :=
  {| CellID := Proximity.CellID r;
     celltype := Proximity.celltype r;
     CellID_1 := Proximity.CellID_1 r;
     celltype_1 := Proximity.celltype_1 r |}.

(** [WITH cellp AS (SELECT CellID, celltype, CellID_1, celltype_1 FROM pairs
     WHERE X_centroid > 23076.9 AND ... AND Y_centroid < 15000)] *)
Definition cellp (pairs : list Proximity.row) : list row :=
  map select
      (SQL.WHERE (fun r => in_region (Proximity.X_centroid r) (Proximity.Y_centroid r))
                 pairs).
End Rows.
End Cellp.

Module Aggregation.
Section Rows.
Context `{E : GeoEngine}.

Record row : Type := {
  CellID : option Z;
  N_Tumor_Cells : Z
}.

(** [COUNTIF(celltype_1 = 'Tumor') - 1] over one group. *)
Definition count_tumor (g : list Cellp.row) : Z :=
  (SQL.COUNTIF (fun r => SQL.eqs (Some (Cellp.celltype_1 r)) (SQL.lit "Tumor")) g - 1)%Z.

(** [SELECT CellID, COUNTIF(celltype_1 = 'Tumor') - 1 AS N_Tumor_Cells
     FROM cellp WHERE celltype = 'Tumor' GROUP BY CellID] *)
Definition query (pairs : list Proximity.row) : list row :=
  map (fun kg => {| CellID := fst kg; N_Tumor_Cells := count_tumor (snd kg) |})
      (GROUP_BY Cellp.CellID
         (SQL.WHERE (fun r => SQL.eqs (Some (Cellp.celltype r)) (SQL.lit "Tumor"))
                    (Cellp.cellp pairs))).
End Rows.
End Aggregation.

(** ** Cell 28: the clustering statement *)

(** [ORDER BY key] on a nullable INT64 key: ascending, NULLs first.  Rows with
    equal keys keep their order here; the engine promises none. *)
Definition key_le (a b : option Z) : bool :=
  match a, b with
  | None, _ => true
  | Some _, None => false
  | Some x, Some y => (x <=? y)%Z
  end.

Fixpoint insert_by {A} (key : A -> option Z) (x : A) (l : list A) : list A :=
  match l with
  | [] => [x]
  | y :: l' => if key_le (key x) (key y) then x :: l else y :: insert_by key x l'
  end.

Definition ORDER_BY {A} (key : A -> option Z) (t : list A) : list A :=
  fold_right (insert_by key) [] t.

Module ClusterCells.
Section Rows.
Context `{E : GeoEngine}.

Record row : Type := {
  CellID : option Z;
  X_centroid : option float;
  Y_centroid : option float;
  p : option geography
}.

Definition select (r : HTAN.row) : row :=
  {| CellID := HTAN.CellID r;
     X_centroid := HTAN.X_centroid r;
     Y_centroid := HTAN.Y_centroid r;
     p := Geo.rescaled_point (HTAN.X_centroid r) (HTAN.Y_centroid r) |}.

(** The WHERE clause of the CTE, conjunct by conjunct. *)
Definition condition (r : HTAN.row) : option bool :=
  SQL.AND (SQL.AND (SQL.AND (SQL.AND (SQL.AND (SQL.AND
    (of_biospecimen r)
    (SQL.gt (HTAN.X_centroid r) (SQL.lit 23076.9%float)))
    (SQL.lt (HTAN.X_centroid r) (SQL.lit 30384.6%float)))
    (SQL.gt (HTAN.Y_centroid r) (SQL.lit 9615.3%float)))
    (SQL.lt (HTAN.Y_centroid r) (SQL.lit 15000%float)))
    (SQL.gt (HTAN.SOX10_cellRingMask r) (SQL.lit 3704.5%float)))
    (SQL.OR (SQL.gt (HTAN.S100B_cellRingMask r) (SQL.lit 7589.48%float))
            (SQL.gt (HTAN.CD63_cellRingMask r) (SQL.lit 570.68%float))).

(** [WITH cells AS (SELECT CellID, X_centroid, Y_centroid, ST_GeogPoint(...) AS p
     FROM source WHERE ...)] *)
Definition cells (source : list HTAN.row) : list row :=
  map select (SQL.WHERE condition source).
End Rows.
End ClusterCells.

Module Clustering.
Section Rows.
Context `{E : GeoEngine}.

Record row : Type := {
  CellID : option Z;
  X_centroid : option float;
  Y_centroid : option float;
  cluster_num : option Z
}.

(** [ST_CLUSTERDBSCAN(p, 20, 10) OVER ()]: the window is every row of [cells]. *)
Definition windowed (cells : list ClusterCells.row) : list row :=
  imap (fun i c =>
          {| CellID := ClusterCells.CellID c;
             X_centroid := ClusterCells.X_centroid c;
             Y_centroid := ClusterCells.Y_centroid c;
             cluster_num :=
               ST_ClusterDBSCAN (map ClusterCells.p cells) 20%float 10%Z i |})
       cells.

(** [SELECT CellID, X_centroid, Y_centroid, ST_CLUSTERDBSCAN(p, 20, 10) OVER ()
     AS cluster_num FROM cells ORDER BY cluster_num] *)
Definition query (source : list HTAN.row) : list row :=
  ORDER_BY cluster_num (windowed (ClusterCells.cells source)).
End Rows.
End Clustering.

(** * The notebook's cells *)

(** What the service answers a request with. *)
Inductive answer (A : Type) : Type :=
| Done (a : A)
| Failed (reason : string).
Arguments Done {A} a.
Arguments Failed {A} reason.

(** What a cell or a call ends in: a value, or a raised exception. *)
Inductive exn : Type :=
| NameError (name : string)
| KeyError (key : string)
| GoogleAPIError (reason : string).

Inductive outcome (A : Type) : Type :=
| Ok (a : A)
| Raise (e : exn).
Arguments Ok {A} a.
Arguments Raise {A} e.

Section Notebook.
Context `{E : GeoEngine}.

(** ** Rows on the wire: statement results, stored tables, dataframes *)

(** Cell 30's frame: the clusters with [cluster_num] cast to [str]. *)
Record plotted_row : Type := {
  plotted_CellID : option Z;
  plotted_X_centroid : option float;
  plotted_Y_centroid : option float;
  plotted_cluster_num : string
}.

Inductive rowset : Type :=
| Cells (rows : list HTAN.row)
| Labelled (rows : list Classification.row)
| Pairs (rows : list Proximity.row)
| Counts (rows : list Aggregation.row)
| Clusters (rows : list Clustering.row)
| Plotted (rows : list plotted_row).

(** ** The statements the notebook builds *)

Inductive statement : Type :=
| SelectLabelled                           (* cell 12 *)
| SelectPairs                              (* cell 17 *)
| SelectPairsLimit10 (project : string)    (* cell 21 *)
| SelectNeighbourCounts (project : string) (* cell 23 *)
| SelectClusters.                          (* cell 28 *)

Definition source_table : string :=
  "isb-cgc-bq.HTAN.imaging_level4_HMS_mel_mask_current".

(** ["{}.temp15432.Melanoma_CyCIF_HTA7_1_3_points_within_20um".format(project)] *)
Definition pairs_table (project : string) : string :=
  project ++ ".temp15432.Melanoma_CyCIF_HTA7_1_3_points_within_20um".

Definition scan_cells (tables : gmap string rowset) (name : string)
  : answer (list HTAN.row) :=
  match tables !! name with
  | Some (Cells rows) => Done rows
  | Some _ => Failed "invalidQuery"
  | None => Failed "notFound"
  end.

Definition scan_pairs (tables : gmap string rowset) (name : string)
  : answer (list Proximity.row) :=
  match tables !! name with
  | Some (Pairs rows) => Done rows
  | Some _ => Failed "invalidQuery"
  | None => Failed "notFound"
  end.

(** [LIMIT n] on a statement without [ORDER BY]: the first [n] rows in the
    order the engine scans the table in, which is the engine's choice. *)
Definition LIMIT {A} (n : nat) (t : list A) : list A :=
  firstn n (omap (fun i => t !! i) (scan_order (length t))).

(** The rows a statement returns over the stored tables. *)
Definition evaluate (q : statement) (tables : gmap string rowset) : answer rowset :=
  match q with
  | SelectLabelled =>
      match scan_cells tables source_table with
      | Done source => Done (Labelled (Classification.query source))
      | Failed why => Failed why
      end
  | SelectPairs =>
      match scan_cells tables source_table with
      | Done source => Done (Pairs (Proximity.query source))
      | Failed why => Failed why
      end
  | SelectPairsLimit10 project =>
      match scan_pairs tables (pairs_table project) with
      | Done pairs => Done (Pairs (LIMIT 10 pairs))
      | Failed why => Failed why
      end
  | SelectNeighbourCounts project =>
      match scan_pairs tables (pairs_table project) with
      | Done pairs => Done (Counts (Aggregation.query pairs))
      | Failed why => Failed why
      end
  | SelectClusters =>
      match scan_cells tables source_table with
      | Done source => Done (Clusters (Clustering.query source))
      | Failed why => Failed why
      end
  end.

(** ** The remote project

    [tables] are the tables that have a name; the rows of a job that names no
    destination stay with the job. *)

Inductive disposition : Type := WRITE_TRUNCATE | WRITE_APPEND.

(** [bigquery.QueryJobConfig(destination=..., write_disposition=...)] *)
Record QueryJobConfig : Type := {
  destination : string;
  write_disposition : disposition
}.

Record Dataset : Type := {
  dataset_ref : string;
  location : option string
}.

(** The library calls of the notebook that go out to the identity service or
    to BigQuery.  The libraries (google.colab, google-cloud-bigquery,
    pandas-gbq) are not code of the notebook: each call is one step here, with
    the outcome the library documents. *)
Inductive request : Type :=
| AuthenticateUser
| DefaultCredentials (key_file : option string) (project : string)
| CreateDataset (d : Dataset) (exists_ok : bool)
| InsertQueryJob (q : statement) (job_config : option QueryJobConfig)
| GetQueryResults (job : nat)
| ReadGbq (q : statement) (project : string).

Record cloud : Type := {
  datasets : gset string;
  tables : gmap string rowset;
  (** finished query jobs, each with its anonymous result or its error *)
  jobs : list (answer rowset)
}.

Definition append_rows (old new : rowset) : answer rowset :=
  match old, new with
  | Cells a, Cells b => Done (Cells (a ++ b))
  | Labelled a, Labelled b => Done (Labelled (a ++ b))
  | Pairs a, Pairs b => Done (Pairs (a ++ b))
  | Counts a, Counts b => Done (Counts (a ++ b))
  | Clusters a, Clusters b => Done (Clusters (a ++ b))
  | Plotted a, Plotted b => Done (Plotted (a ++ b))
  | _, _ => Failed "invalid"
  end.

(** Where a finished query job leaves its rows: in the destination table when
    the job has a configuration naming one, in an anonymous table of the job
    otherwise. *)
Definition write_result (job_config : option QueryJobConfig) (rows : rowset)
    (tables : gmap string rowset) : answer (gmap string rowset) :=
  match job_config with
  | None => Done tables
  | Some cfg =>
      match write_disposition cfg, tables !! destination cfg with
      | WRITE_APPEND, Some old =>
          match append_rows old rows with
          | Done all => Done (<[destination cfg := all]> tables)
          | Failed why => Failed why
          end
      | _, _ => Done (<[destination cfg := rows]> tables)
      end
  end.

(** The job the service runs for [client.query(q, job_config)]. *)
Definition run_job (q : statement) (job_config : option QueryJobConfig) (c : cloud)
  : cloud :=
  match evaluate q (tables c) with
  | Failed why =>
      {| datasets := datasets c; tables := tables c; jobs := jobs c ++ [Failed why] |}
  | Done rows =>
      match write_result job_config rows (tables c) with
      | Failed why =>
          {| datasets := datasets c; tables := tables c; jobs := jobs c ++ [Failed why] |}
      | Done tables' =>
          {| datasets := datasets c; tables := tables'; jobs := jobs c ++ [Done rows] |}
      end
  end.

(** What each call does to the project when the service serves it.  The
    service refuses to create a dataset that exists already. *)
Definition create_dataset_served (d : Dataset) (c : cloud)
  : answer (Dataset * cloud) :=
  if decide (dataset_ref d ∈ datasets c) then
    Failed "duplicate"
  else
    Done (d, {| datasets := {[dataset_ref d]} ∪ datasets c;
                tables := tables c; jobs := jobs c |}).

Definition insert_job_served (q : statement) (job_config : option QueryJobConfig)
    (c : cloud) : answer (nat * cloud) :=
  Done (length (jobs c), run_job q job_config c).

Definition query_results_served (job : nat) (c : cloud) : answer (rowset * cloud) :=
  match jobs c !! job with
  | Some (Done rows) => Done (rows, c)
  | Some (Failed why) => Failed why
  | None => Failed "notFound"
  end.

(** [read_gbq] runs the statement as a job without a configuration and
    downloads the job's rows. *)
Definition read_gbq_served (q : statement) (c : cloud) : answer (rowset * cloud) :=
  match evaluate q (tables c) with
  | Done rows => Done (rows, run_job q None c)
  | Failed why => Failed why
  end.

(** ** The kernel: variables, environment, and the world outside *)

Record namespace : Type := {
  auth : bool;   (* bound once [from google.colab import auth] has run *)
  project_id : option string;
  client : option string;   (* the client's project *)
  query : option statement;
  dataset_id : option Dataset;
  dataset : option Dataset;
  query_job : option nat;
  df : option rowset;
  df1 : option rowset
}.

Record world : Type := {
  (** the failure, if any, the service answers its [n]-th request with,
      whatever the request (no credentials, quota, billing, outage) *)
  faults : nat -> option string;
  (** the requests made so far, newest first, each with the failure it got *)
  log : list (request * option string);
  remote : cloud
}.

Record kernel : Type := {
  environ : gmap string string;
  ns : namespace;
  ext : world
}.

Definition M (A : Type) : Type := kernel -> outcome A * kernel.

Definition ret {A} (a : A) : M A := fun k => (Ok a, k).

Definition bind {A B} (m : M A) (f : A -> M B) : M B :=
  fun k =>
    match m k with
    | (Ok a, k') => f a k'
    | (Raise e, k') => (Raise e, k')
    end.

Notation "x <- m ;; f" := (bind m (fun x => f))
  (at level 100, m at next level, right associativity).
Notation "m ;;; f" := (bind m (fun _ => f))
  (at level 100, right associativity).

(** Reading a name that is not bound raises [NameError]. *)
Definition load {A} (name : string) (get : namespace -> option A) : M A :=
  fun k =>
    match get (ns k) with
    | Some v => (Ok v, k)
    | None => (Raise (NameError name), k)
    end.

Definition store (set : namespace -> namespace) : M unit :=
  fun k => (Ok tt, {| environ := environ k; ns := set (ns k); ext := ext k |}).

Definition setenv (name value : string) : M unit :=
  fun k => (Ok tt, {| environ := <[name := value]> (environ k); ns := ns k; ext := ext k |}).

Definition getenv (name : string) : M (option string) :=
  fun k => (Ok (environ k !! name), k).

(** One call to the service: it is logged with the failure it is answered
    with, if any, and that failure is raised. *)
Definition call {A} (rq : request) (serve : cloud -> answer (A * cloud)) : M A :=
  fun k =>
    let w := ext k in
    let logged why c :=
      {| environ := environ k; ns := ns k;
         ext := {| faults := faults w; log := (rq, why) :: log w; remote := c |} |} in
    match faults w (length (log w)) with
    | Some why => (Raise (GoogleAPIError why), logged (Some why) (remote w))
    | None =>
        match serve (remote w) with
        | Failed why => (Raise (GoogleAPIError why), logged (Some why) (remote w))
        | Done (a, c) => (Ok a, logged None c)
        end
    end.

(** Assignments to the notebook's variables. *)
Definition set_project_id (v : string) (n : namespace) : namespace :=
  {| auth := auth n; project_id := Some v; client := client n; query := query n;
     dataset_id := dataset_id n; dataset := dataset n; query_job := query_job n;
     df := df n; df1 := df1 n |}.

Definition set_client (v : string) (n : namespace) : namespace :=
  {| auth := auth n; project_id := project_id n; client := Some v; query := query n;
     dataset_id := dataset_id n; dataset := dataset n; query_job := query_job n;
     df := df n; df1 := df1 n |}.

Definition set_query (v : statement) (n : namespace) : namespace :=
  {| auth := auth n; project_id := project_id n; client := client n; query := Some v;
     dataset_id := dataset_id n; dataset := dataset n; query_job := query_job n;
     df := df n; df1 := df1 n |}.

Definition set_dataset_id (v : Dataset) (n : namespace) : namespace :=
  {| auth := auth n; project_id := project_id n; client := client n; query := query n;
     dataset_id := Some v; dataset := dataset n; query_job := query_job n;
     df := df n; df1 := df1 n |}.

Definition set_dataset (v : Dataset) (n : namespace) : namespace :=
  {| auth := auth n; project_id := project_id n; client := client n; query := query n;
     dataset_id := dataset_id n; dataset := Some v; query_job := query_job n;
     df := df n; df1 := df1 n |}.

Definition set_query_job (v : nat) (n : namespace) : namespace :=
  {| auth := auth n; project_id := project_id n; client := client n; query := query n;
     dataset_id := dataset_id n; dataset := dataset n; query_job := Some v;
     df := df n; df1 := df1 n |}.

Definition set_df (v : rowset) (n : namespace) : namespace :=
  {| auth := auth n; project_id := project_id n; client := client n; query := query n;
     dataset_id := dataset_id n; dataset := dataset n; query_job := query_job n;
     df := Some v; df1 := df1 n |}.

Definition set_df1 (v : rowset) (n : namespace) : namespace :=
  {| auth := auth n; project_id := project_id n; client := client n; query := query n;
     dataset_id := dataset_id n; dataset := dataset n; query_job := query_job n;
     df := df n; df1 := Some v |}.

(** ** Library calls *)

(** [auth.authenticate_user()] *)
Definition authenticate_user : M unit :=
  call AuthenticateUser (fun c => Done (tt, c)).

(** [bigquery.Client(project)]: the credentials are looked up when the client
    is built. *)
Definition Client (project : string) : M string :=
  key_file <- getenv "GOOGLE_APPLICATION_CREDENTIALS" ;;
  call (DefaultCredentials key_file project) (fun c => Done (project, c)).

(** [client.create_dataset(dataset, exists_ok=..., timeout=30)]: a call like
    the others, except that with [exists_ok] the library catches the
    service's refusal to create a dataset that exists and returns that
    dataset instead of raising.  The refusal stays in the log. *)
Definition create_dataset (d : Dataset) (exists_ok : bool) : M Dataset :=
  fun k =>
    let w := ext k in
    let logged why c :=
      {| environ := environ k; ns := ns k;
         ext := {| faults := faults w;
                   log := (CreateDataset d exists_ok, why) :: log w;
                   remote := c |} |} in
    match faults w (length (log w)) with
    | Some why => (Raise (GoogleAPIError why), logged (Some why) (remote w))
    | None =>
        match create_dataset_served d (remote w) with
        | Done (a, c) => (Ok a, logged None c)
        | Failed why =>
            if exists_ok then (Ok d, logged (Some why) (remote w))
            else (Raise (GoogleAPIError why), logged (Some why) (remote w))
        end
    end.

(** [client.query(query, job_config=...)] *)
Definition client_query (q : statement) (job_config : option QueryJobConfig) : M nat :=
  call (InsertQueryJob q job_config) (insert_job_served q job_config).

(** [query_job.result()] *)
Definition result (job : nat) : M rowset :=
  call (GetQueryResults job) (query_results_served job).

(** [pandas_gbq.read_gbq(query, project_id=project_id)] *)
Definition read_gbq (q : statement) (project : string) : M rowset :=
  call (ReadGbq q project) (read_gbq_served q).

(** ** pandas *)

Definition notna {A} (v : option A) : bool :=
  match v with
  | Some _ => true
  | None => false
  end.

Definition notna_float (v : option float) : bool :=
  match v with
  | Some x => negb (PrimFloat.is_nan x)
  | None => false
  end.

(** [df.dropna()]: the rows without a missing value. *)
Definition dropna (d : rowset) : rowset :=
  match d with
  | Cells rows =>
      Cells (List.filter (fun r =>
        notna (HTAN.CellID r) && notna_float (HTAN.X_centroid r)
        && notna_float (HTAN.Y_centroid r) && notna_float (HTAN.SOX10_cellRingMask r)
        && notna_float (HTAN.S100B_cellRingMask r) && notna_float (HTAN.CD63_cellRingMask r)
        && notna (HTAN.HTAN_Biospecimen_ID r)) rows)
  | Labelled rows =>
      Labelled (List.filter (fun r =>
        notna (Classification.CellID r) && notna_float (Classification.X_centroid r)
        && notna_float (Classification.Y_centroid r)) rows)
  | Pairs rows =>
      Pairs (List.filter (fun r =>
        notna (Proximity.CellID r) && notna_float (Proximity.X_centroid r)
        && notna_float (Proximity.Y_centroid r) && notna (Proximity.p r)
        && notna (Proximity.CellID_1 r) && notna_float (Proximity.X_centroid_1 r)
        && notna_float (Proximity.Y_centroid_1 r) && notna (Proximity.p_1 r)
        && notna_float (Proximity.Distance r)) rows)
  | Counts rows =>
      Counts (List.filter (fun r => notna (Aggregation.CellID r)) rows)
  | Clusters rows =>
      Clusters (List.filter (fun r =>
        notna (Clustering.CellID r) && notna_float (Clustering.X_centroid r)
        && notna_float (Clustering.Y_centroid r) && notna (Clustering.cluster_num r)) rows)
  | Plotted rows =>
      Plotted (List.filter (fun r =>
        notna (plotted_CellID r) && notna_float (plotted_X_centroid r)
        && notna_float (plotted_Y_centroid r)) rows)
  end.

(** [df1['cluster_num'].astype(str)], written back into the column. *)
Definition cluster_num_as_str (r : Clustering.row) : plotted_row :=
  {| plotted_CellID := Clustering.CellID r;
     plotted_X_centroid := Clustering.X_centroid r;
     plotted_Y_centroid := Clustering.Y_centroid r;
     plotted_cluster_num :=
       match Clustering.cluster_num r with
       | Some n => pretty n
       | None => "<NA>"
       end |}.

(** ** The code cells

    Plotting calls draw from [df] and [df1] and assign nothing; they are left
    out. *)

Definition cell7 : M unit :=
  _ <- load "auth" (fun n => if auth n then Some tt else None) ;;
  authenticate_user.

Definition cell8 : M unit :=
  setenv "GOOGLE_APPLICATION_CREDENTIALS" "/home/jovyan/key-file" ;;;
  store (set_project_id "isb-cgc-outreach") ;;;
  p <- load "project_id" project_id ;;
  c <- Client p ;;
  store (set_client c).

Definition cell12 : M unit :=
  store (set_query SelectLabelled) ;;;
  q <- load "query" query ;;
  p <- load "project_id" project_id ;;
  rows <- read_gbq q p ;;
  store (set_df rows).

Definition cell17 : M unit :=
  store (set_query SelectPairs).

Definition cell19 : M unit :=
  c <- load "client" client ;;
  let d := {| dataset_ref := c ++ ".temp15432"; location := None |} in
  store (set_dataset_id d) ;;;
  store (set_dataset d) ;;;
  d <- load "dataset" dataset ;;
  let d := {| dataset_ref := dataset_ref d; location := Some "US" |} in
  store (set_dataset_id d) ;;;
  store (set_dataset d) ;;;
  _ <- load "client" client ;;
  d <- load "dataset" dataset ;;
  d <- create_dataset d true ;;
  store (set_dataset d) ;;;
  _ <- load "client" client ;;
  q <- load "query" query ;;
  job <- client_query q None ;;
  store (set_query_job job) ;;;
  job <- load "query_job" query_job ;;
  _ <- result job ;;
  ret tt.

Definition cell21 : M unit :=
  c <- load "client" client ;;
  store (set_query (SelectPairsLimit10 c)) ;;;
  q <- load "query" query ;;
  p <- load "project_id" project_id ;;
  rows <- read_gbq q p ;;
  store (set_df rows).

Definition cell23 : M unit :=
  c <- load "client" client ;;
  store (set_query (SelectNeighbourCounts c)) ;;;
  q <- load "query" query ;;
  p <- load "project_id" project_id ;;
  rows <- read_gbq q p ;;
  store (set_df1 rows).

Definition cell28 : M unit :=
  store (set_query SelectClusters) ;;;
  q <- load "query" query ;;
  p <- load "project_id" project_id ;;
  rows <- read_gbq q p ;;
  store (set_df rows).

Definition cell30 : M unit :=
  d <- load "df" df ;;
  store (set_df1 (dropna d)) ;;;
  d1 <- load "df1" df1 ;;
  match d1 with
  | Clusters rows => store (set_df1 (Plotted (map cluster_num_as_str rows)))
  | _ => fun k => (Raise (KeyError "cluster_num"), k)
  end.

Inductive cell : Type :=
| Cell7 | Cell8 | Cell12 | Cell17 | Cell19 | Cell21 | Cell23 | Cell28 | Cell30.

Definition run (c : cell) : M unit :=
  match c with
  | Cell7 => cell7
  | Cell8 => cell8
  | Cell12 => cell12
  | Cell17 => cell17
  | Cell19 => cell19
  | Cell21 => cell21
  | Cell23 => cell23
  | Cell28 => cell28
  | Cell30 => cell30
  end.

(** The names a cell reads before it binds them are bound, to values of the
    kind the cell uses them as: the cells above it have run.  Cell 7 reads
    [auth], which no cell binds; it asks for nothing here. *)
Definition ready (c : cell) (n : namespace) : Prop :=
  match c with
  | Cell7 | Cell8 | Cell17 => True
  | Cell12 | Cell28 => is_Some (project_id n)
  | Cell19 => is_Some (client n) /\ is_Some (query n)
  | Cell21 | Cell23 => is_Some (client n) /\ is_Some (project_id n)
  | Cell30 => exists rows, df n = Some (Clusters rows)
  end.

End Notebook.

(** * Vocabulary of the statements about the queries *)

(** The marker rule of the notebook's text: SOX10 positive, and S100B or CD63
    positive. *)
Definition tumor_markers (r : HTAN.row) : Prop :=
  exceeds (HTAN.SOX10_cellRingMask r) 3704.5%float /\
  (exceeds (HTAN.S100B_cellRingMask r) 7589.48%float \/
   exceeds (HTAN.CD63_cellRingMask r) 570.68%float).

(** The other records of the biospecimen within the threshold of [r] that are
    labelled 'Tumor'. *)
Definition tumor_neighbours `{E : GeoEngine} (source : list HTAN.row) (r : HTAN.row)
  : list HTAN.row :=
  List.filter
    (fun b => negb (bool_decide (HTAN.CellID b = HTAN.CellID r))
              && SQL.holds (Proximity.on (Geodat.select r) (Geodat.select b))
              && String.eqb (Geodat.celltype_of b) "Tumor")
    (SQL.WHERE of_biospecimen source).

(** A pair row with the neighbour's coordinates replaced. *)
Definition move_neighbour `{E : GeoEngine}
    (to : Proximity.row -> option float * option float) (r : Proximity.row)
  : Proximity.row :=
  {| Proximity.CellID := Proximity.CellID r;
     Proximity.X_centroid := Proximity.X_centroid r;
     Proximity.Y_centroid := Proximity.Y_centroid r;
     Proximity.p := Proximity.p r;
     Proximity.celltype := Proximity.celltype r;
     Proximity.CellID_1 := Proximity.CellID_1 r;
     Proximity.X_centroid_1 := fst (to r);
     Proximity.Y_centroid_1 := snd (to r);
     Proximity.p_1 := Proximity.p_1 r;
     Proximity.celltype_1 := Proximity.celltype_1 r;
     Proximity.Distance := Proximity.Distance r |}.



(** * An engine to run the statements on

    Points on a grid of 1e-7 degrees, taxicab distance at 111195 m per degree;
    one cluster when the window holds the minimum number of points, noise
    otherwise.  It serves the worked examples and satisfies [GeoLaws]. *)

Module Grid.

Definition floor (f : float) : Z :=
  match Prim2SF f with
  | S754_finite s m e =>
      let v := Z.shiftl (Z.pos m) e in if s then (- v - 1)%Z else v
  | _ => 0%Z
  end.

Definition of_Z (z : Z) : float := PrimFloat.of_uint63 (Uint63.of_Z z).

Definition point (lon lat : float) : Z * Z :=
  (floor (lon * 10000000)%float, floor (lat * 10000000)%float).

Definition distance (g1 g2 : Z * Z) : float :=
  (of_Z (Z.abs (fst g1 - fst g2) + Z.abs (snd g1 - snd g2)) * 0.0111195)%float.

Definition dwithin (g1 g2 : Z * Z) (d : float) : bool :=
  PrimFloat.leb (distance g1 g2) d.

Definition cluster (window : list (option (Z * Z))) (epsilon : float)
    (minimum : Z) (i : nat) : option Z :=
  if (minimum <=? Z.of_nat (length window))%Z then Some 0%Z else None.

#[global] Instance engine : GeoEngine := {|
  geography := Z * Z;
  ST_GeogPoint := point;
  ST_DWithin := dwithin;
  ST_Distance := distance;
  ST_ClusterDBSCAN := cluster;
  scan_order := seq 0
|}.

(** A record of HTA7_1_3. *)
Definition record (id : Z) (x y sox10 s100b cd63 : float) : HTAN.row :=
  {| HTAN.CellID := Some id;
     HTAN.X_centroid := Some x;
     HTAN.Y_centroid := Some y;
     HTAN.SOX10_cellRingMask := Some sox10;
     HTAN.S100B_cellRingMask := Some s100b;
     HTAN.CD63_cellRingMask := Some cd63;
     HTAN.HTAN_Biospecimen_ID := Some "HTA7_1_3" |}.

(** Two tumor cells 10 pixels apart, the first inside the region and the
    second left of it; a third cell, not a tumor cell, inside the region and
    far from both; a record of the biospecimen without coordinates. *)
Definition inside_tumor : HTAN.row := record 1 23080 12000 4000 8000 0.
Definition outside_tumor : HTAN.row := record 2 23070 12000 4000 0 600.
Definition inside_other : HTAN.row := record 3 25000 12000 100 8000 600.
Definition unplaced : HTAN.row :=
  {| HTAN.CellID := Some 4%Z;
     HTAN.X_centroid := None;
     HTAN.Y_centroid := None;
     HTAN.SOX10_cellRingMask := Some 4000%float;
     HTAN.S100B_cellRingMask := Some 8000%float;
     HTAN.CD63_cellRingMask := Some 600%float;
     HTAN.HTAN_Biospecimen_ID := Some "HTA7_1_3" |}.

(** The same markers as [inside_tumor], in another biospecimen and place. *)
Definition elsewhere : HTAN.row :=
  {| HTAN.CellID := Some 9%Z;
     HTAN.X_centroid := Some 5%float;
     HTAN.Y_centroid := None;
     HTAN.SOX10_cellRingMask := Some 4000%float;
     HTAN.S100B_cellRingMask := Some 8000%float;
     HTAN.CD63_cellRingMask := Some 0%float;
     HTAN.HTAN_Biospecimen_ID := Some "HTA7_1_1" |}.

Definition sample : list HTAN.row :=
  [inside_tumor; outside_tumor; inside_other; elsewhere].

End Grid.

(** A kernel that has run nothing, beside a project that holds the source
    table and nothing else, and a service that answers every request. *)
Definition fresh_kernel `{E : GeoEngine} (source : list HTAN.row) : kernel :=
  {| environ := ∅;
     ns := {| auth := false; project_id := None; client := None; query := None;
              dataset_id := None; dataset := None; query_job := None;
              df := None; df1 := None |};
     ext := {| faults := fun _ => None;
               log := [];
               remote := {| datasets := ∅;
                            tables := {[ source_table := Cells source ]};
                            jobs := [] |} |} |}.

(** Running cells one after the other, whatever each ends in. *)
Definition after `{E : GeoEngine} (cells : list cell) (k : kernel) : kernel :=
  fold_left (fun k c => snd (run c k)) cells k.

(** * Vocabulary of the statements about the cells *)

(** A computation that leaves every named table of the project as it was. *)
Definition keeps_tables `{E : GeoEngine} {A} (m : M A) : Prop :=
  forall k, tables (remote (ext (snd (m k)))) = tables (remote (ext k)).

(** A computation that handles no failure of the service, or none but those
    [P] allows: the calls it makes are added to the log; when it raises a
    failure of the service, that failure is the answer to the last call it
    made; every other entry it added satisfies [P]. *)
Definition unhandled `{E : GeoEngine} {A} (P : request * option string -> Prop)
    (m : M A) : Prop :=
  forall k,
    exists new,
      log (ext (snd (m k))) = (new ++ log (ext k))%list /\
      match fst (m k) with
      | Raise (GoogleAPIError why) =>
          exists rq rest, new = (rq, Some why) :: rest /\ Forall P rest
      | _ => Forall P new
      end.



(** * Vocabulary of the further statements *)

(** The order of [ORDER BY] on a nullable INT64: NULL first, then ascending. *)
Definition nulls_first_le (a b : option Z) : Prop :=
  match a, b with
  | None, _ => True
  | Some _, None => False
  | Some x, Some y => (x <= y)%Z
  end.

(** The test the neighbour-count statement makes on the centre of a stored
    pair: inside the region, and labelled 'Tumor'. *)
Definition counted_centre `{E : GeoEngine} (r : Proximity.row) : bool :=
  SQL.holds (in_region (Proximity.X_centroid r) (Proximity.Y_centroid r))
  && String.eqb (Proximity.celltype r) "Tumor".

(** The calls to the service a cell's text contains. *)
Definition calls_of (c : cell) : nat :=
  match c with
  | Cell7 | Cell8 | Cell12 | Cell21 | Cell23 | Cell28 => 1
  | Cell19 => 3
  | Cell17 | Cell30 => 0
  end.

(** A computation that makes at most [n] calls. *)
Definition at_most_calls `{E : GeoEngine} {A} (n : nat) (m : M A) : Prop :=
  forall k, length (log (ext (snd (m k)))) <= length (log (ext k)) + n.

(** A computation that leaves a view of the names as it was. *)
Definition keeps_names `{E : GeoEngine} {A X} (view : namespace -> X) (m : M A) : Prop :=
  forall k, view (ns (snd (m k))) = view (ns k).

(** A computation that leaves a view of the names as it was unless it
    completes. *)
Definition keeps_names_on_failure `{E : GeoEngine} {A X} (view : namespace -> X)
    (m : M A) : Prop :=
  forall k, (exists a, fst (m k) = Ok a) \/ view (ns (snd (m k))) = view (ns k).

(** A computation that leaves a view of the project as it was. *)
Definition keeps_project `{E : GeoEngine} {A X} (view : cloud -> X) (m : M A) : Prop :=
  forall k, view (remote (ext (snd (m k)))) = view (remote (ext k)).

(** The dataframes of the notebook; the session a cell works in. *)
Definition frames `{E : GeoEngine} (n : namespace) : option rowset * option rowset :=
  (df n, df1 n).

Definition session `{E : GeoEngine} (n : namespace) : option string * option string :=
  (project_id n, client n).

(** The cells in the order of the notebook, cell 7 (Colab only) left out. *)
Definition notebook_order : list cell :=
  [Cell8; Cell12; Cell17; Cell19; Cell21; Cell23; Cell28; Cell30].

(** Every cell of the list completes, run one after the other. *)
Fixpoint completes `{E : GeoEngine} (cells : list cell) (k : kernel) : Prop :=
  match cells with
  | [] => True
  | c :: rest => fst (run c k) = Ok tt /\ completes rest (snd (run c k))
  end.

(** The fresh kernel beside a project that also holds the pairs table, as a
    job configured with the destination would have left it. *)
Definition stocked_kernel `{E : GeoEngine} (source : list HTAN.row) : kernel :=
  let k := fresh_kernel source in
  {| environ := environ k;
     ns := ns k;
     ext := {| faults := faults (ext k);
               log := log (ext k);
               remote :=
                 {| datasets := {["isb-cgc-outreach.temp15432"]};
                    tables := <[pairs_table "isb-cgc-outreach" := Pairs (Proximity.query source)]>
                                (tables (remote (ext k)));
                    jobs := [] |} |} |}.

(** * Facts about the SQL operators *)

Lemma holds_Some b : SQL.holds (Some b) = b.
Proof. destruct b; reflexivity. Qed.

Lemma holds_AND a b : SQL.holds (SQL.AND a b) = SQL.holds a && SQL.holds b.
Proof. destruct a as [[]|], b as [[]|]; reflexivity. Qed.

Lemma holds_OR a b : SQL.holds (SQL.OR a b) = SQL.holds a || SQL.holds b.
Proof. destruct a as [[]|], b as [[]|]; reflexivity. Qed.

Lemma holds_gt a y :
  SQL.holds (SQL.gt a (SQL.lit y)) = true <-> exists x, a = Some x /\ PrimFloat.ltb y x = true.
Proof.
  destruct a as [x|]; cbv beta iota delta [SQL.gt SQL.lit]; [rewrite holds_Some|]; split.
  - intros Hx. exists x. split; [reflexivity | assumption].
  - intros [x' [Hx' Hlt]]. injection Hx' as ->. assumption.
  - discriminate.
  - intros [x' [Hx' _]]. discriminate.
Qed.

Lemma holds_lt a y :
  SQL.holds (SQL.lt a (SQL.lit y)) = true <-> exists x, a = Some x /\ PrimFloat.ltb x y = true.
Proof.
  destruct a as [x|]; cbv beta iota delta [SQL.lt SQL.lit]; [rewrite holds_Some|]; split.
  - intros Hx. exists x. split; [reflexivity | assumption].
  - intros [x' [Hx' Hlt]]. injection Hx' as ->. assumption.
  - discriminate.
  - intros [x' [Hx' _]]. discriminate.
Qed.

Lemma holds_eqs a s :
  SQL.holds (SQL.eqs a (SQL.lit s)) = true <-> a = Some s.
Proof.
  destruct a as [x|]; cbv beta iota delta [SQL.eqs SQL.lit]; [rewrite holds_Some|].
  - destruct (String.eqb_spec x s) as [->|Hne]; split; try reflexivity; try discriminate.
    intros [= ->]. contradiction.
  - split; discriminate.
Qed.

Lemma WHERE_In {A} (c : A -> option bool) t r :
  In r (SQL.WHERE c t) <-> In r t /\ SQL.holds (c r) = true.
Proof. unfold SQL.WHERE. apply filter_In. Qed.

Lemma JOIN_In {A B} (c : A -> B -> option bool) t1 t2 a b :
  In (a, b) (SQL.JOIN c t1 t2) <-> In a t1 /\ In b t2 /\ SQL.holds (c a b) = true.
Proof.
  unfold SQL.JOIN. rewrite in_flat_map. split.
  - intros [a' [Ha Hin]]. apply in_map_iff in Hin as [b' [Heq Hb]].
    injection Heq as -> ->. apply filter_In in Hb as [Hb Hc]. auto.
  - intros [Ha [Hb Hc]]. exists a. split; [assumption|].
    apply in_map. apply filter_In. auto.
Qed.


Lemma in_region_spec x y :
  SQL.holds (in_region x y) = true <-> strictly_inside x y.
Proof.
  unfold in_region, strictly_inside.
  rewrite !holds_AND, !andb_true_iff, !holds_gt, !holds_lt.
  split.
  - intros [[[[a [-> H1]] [a' [Ha' H2]]] [b [-> H3]]] [b' [Hb' H4]]].
    injection Ha' as <-. injection Hb' as <-.
    exists a, b. repeat split; assumption.
  - intros [a [b [-> [-> [H1 [H2 [H3 H4]]]]]]].
    repeat split; eexists; split; try reflexivity; assumption.
Qed.

Lemma of_biospecimen_spec r :
  SQL.holds (of_biospecimen r) = true <-> HTAN.HTAN_Biospecimen_ID r = Some "HTA7_1_3".
Proof. apply holds_eqs. Qed.


(** * Facts about lists of rows *)

Lemma filter_of_map {A B} (f : B -> bool) (g : A -> B) (l : list A) :
  List.filter f (map g l) = map g (List.filter (fun a => f (g a)) l).
Proof.
  induction l as [|a l IH]; simpl; [reflexivity|].
  destruct (f (g a)); simpl; rewrite IH; reflexivity.
Qed.

Lemma filter_twice {A} (f g : A -> bool) (l : list A) :
  List.filter f (List.filter g l) = List.filter (fun a => g a && f a) l.
Proof.
  induction l as [|a l IH]; simpl; [reflexivity|].
  destruct (g a); simpl; [destruct (f a)|]; rewrite IH; reflexivity.
Qed.

Lemma WHERE_map {A B} (c : B -> option bool) (g : A -> B) (t : list A) :
  SQL.WHERE c (map g t) = map g (SQL.WHERE (fun a => c (g a)) t).
Proof. exact (filter_of_map (fun b => SQL.holds (c b)) g t). Qed.

Lemma exceeds_spec v t :
  SQL.holds (SQL.gt v (SQL.lit t)) = true <-> exceeds v t.
Proof. apply holds_gt. Qed.

(** The marker condition, as each statement writes it, is [tumor_markers]. *)
Lemma marker_condition_spec r :
  SQL.holds
    (SQL.AND (SQL.gt (HTAN.SOX10_cellRingMask r) (SQL.lit 3704.5%float))
             (SQL.OR (SQL.gt (HTAN.S100B_cellRingMask r) (SQL.lit 7589.48%float))
                     (SQL.gt (HTAN.CD63_cellRingMask r) (SQL.lit 570.68%float)))) = true
  <-> tumor_markers r.
Proof.
  unfold tumor_markers.
  rewrite holds_AND, holds_OR, andb_true_iff, orb_true_iff, !exceeds_spec.
  reflexivity.
Qed.

Lemma IF_label c :
  (SQL.IF c "Tumor" "Other" = "Tumor" <-> SQL.holds c = true) /\
  (SQL.IF c "Tumor" "Other" = "Other" <-> SQL.holds c <> true).
Proof.
  destruct c as [[]|]; simpl; repeat split; auto; try discriminate; try congruence.
Qed.

(** * The classification statement (cell 12) *)

Lemma classification_celltype_spec r :
  (Classification.celltype_of r = "Tumor" <-> tumor_markers r) /\
  (Classification.celltype_of r = "Other" <-> ~ tumor_markers r).
Proof.
  unfold Classification.celltype_of.
  rewrite <- marker_condition_spec. apply IF_label.
Qed.

(** C2: the classification statement returns, one row for each, exactly the
    records of biospecimen HTA7_1_3 whose
    coordinates lie strictly inside the rectangle (23076.9, 9615.3) -
    (30384.6, 15000); a returned row carries the record's CellID and
    coordinates, and its label is 'Tumor' if and only if SOX10 > 3704.5 and
    (S100B > 7589.48 or CD63 > 570.68), and 'Other' otherwise. *)
Theorem classification_query_spec (source : list HTAN.row) :
  exists keep : HTAN.row -> bool,
    (forall r, keep r = true <->
       HTAN.HTAN_Biospecimen_ID r = Some "HTA7_1_3" /\
       strictly_inside (HTAN.X_centroid r) (HTAN.Y_centroid r)) /\
    Classification.query source = map Classification.select (List.filter keep source) /\
    (forall r,
       Classification.CellID (Classification.select r) = HTAN.CellID r /\
       Classification.X_centroid (Classification.select r) = HTAN.X_centroid r /\
       Classification.Y_centroid (Classification.select r) = HTAN.Y_centroid r /\
       (Classification.celltype (Classification.select r) = "Tumor" <-> tumor_markers r) /\
       (Classification.celltype (Classification.select r) = "Other" <-> ~ tumor_markers r)).
Proof.
  exists (fun r => SQL.holds (of_biospecimen r)
                   && SQL.holds (in_region (HTAN.X_centroid r) (HTAN.Y_centroid r))).
  split; [|split].
  - intros r. rewrite andb_true_iff, of_biospecimen_spec, in_region_spec. reflexivity.
  - unfold Classification.query, Classification.cells.
    rewrite WHERE_map. unfold SQL.WHERE. rewrite filter_twice. reflexivity.
  - intros r. simpl.
    pose proof (classification_celltype_spec r) as [Ht Ho].
    split; [reflexivity|]. split; [reflexivity|]. split; [reflexivity|].
    split; assumption.
Qed.

(** * The label (cells 12 and 17) *)

(** C8: records with equal SOX10, S100B and CD63 values get the same label,
    in the classification statement and in the proximity statement (for the
    centre and for the neighbour of a pair alike), whatever their
    coordinates, biospecimen or CellID; the two statements compute the same
    label for them. *)
Theorem celltype_is_a_function_of_the_markers `{E : GeoEngine} (r1 r2 : HTAN.row) :
  HTAN.SOX10_cellRingMask r1 = HTAN.SOX10_cellRingMask r2 ->
  HTAN.S100B_cellRingMask r1 = HTAN.S100B_cellRingMask r2 ->
  HTAN.CD63_cellRingMask r1 = HTAN.CD63_cellRingMask r2 ->
  Classification.celltype (Classification.select r1)
    = Classification.celltype (Classification.select r2) /\
  Geodat.celltype (Geodat.select r1) = Geodat.celltype (Geodat.select r2) /\
  Classification.celltype (Classification.select r1)
    = Geodat.celltype (Geodat.select r2) /\
  (forall other,
     Proximity.celltype (Proximity.select (Geodat.select r1, other))
       = Classification.celltype (Classification.select r2) /\
     Proximity.celltype_1 (Proximity.select (other, Geodat.select r1))
       = Classification.celltype (Classification.select r2)).
Proof.
  intros Hsox Hs100 Hcd63. simpl.
  unfold Classification.celltype_of, Geodat.celltype_of.
  rewrite Hsox, Hs100, Hcd63. repeat split.
Qed.

Lemma celltype_is_a_function_of_the_markers_witness :
  Classification.celltype (Classification.select Grid.inside_tumor) = "Tumor" /\
  Geodat.celltype (Geodat.select Grid.elsewhere) = "Tumor".
Proof.
  pose proof (celltype_is_a_function_of_the_markers
                Grid.inside_tumor Grid.elsewhere eq_refl eq_refl eq_refl)
    as [_ [_ [Heq _]]].
  split; [reflexivity | rewrite <- Heq; reflexivity].
Defined.

(** * The grid engine satisfies the laws *)

Lemma grid_distance_sym g1 g2 : Grid.distance g1 g2 = Grid.distance g2 g1.
Proof.
  unfold Grid.distance. do 2 f_equal. lia.
Qed.

Lemma grid_distance_refl g : Grid.distance g g = 0%float.
Proof.
  unfold Grid.distance.
  replace (Z.abs (fst g - fst g) + Z.abs (snd g - snd g))%Z with 0%Z by lia.
  reflexivity.
Qed.

#[global] Instance grid_laws : GeoLaws Grid.engine.
Proof.
  split; simpl.
  - intros g1 g2 d. unfold Grid.dwithin. rewrite grid_distance_sym. reflexivity.
  - intros g d Hd. unfold Grid.dwithin. rewrite grid_distance_refl. exact Hd.
  - apply grid_distance_refl.
Qed.

(** * The pairwise-proximity statement (cell 17) *)

Lemma geodat_In `{E : GeoEngine} (source : list HTAN.row) (g : Geodat.row) :
  In g (Geodat.geodat source) <->
  exists r, In r source /\ HTAN.HTAN_Biospecimen_ID r = Some "HTA7_1_3" /\
            g = Geodat.select r.
Proof.
  unfold Geodat.geodat. rewrite in_map_iff. split.
  - intros [r [Hg Hr]]. apply WHERE_In in Hr as [Hr Hb].
    apply of_biospecimen_spec in Hb. eauto.
  - intros [r [Hr [Hb Hg]]]. exists r. split; [auto|].
    apply WHERE_In. split; [assumption|]. apply of_biospecimen_spec. assumption.
Qed.

Lemma proximity_select_inj `{E : GeoEngine} (a b a' b' : Geodat.row) :
  Proximity.select (a, b) = Proximity.select (a', b') -> a = a' /\ b = b'.
Proof.
  destruct a, b, a', b'. simpl. intros H. injection H as -> -> -> -> -> -> -> -> -> ->.
  split; reflexivity.
Qed.

Lemma proximity_In `{E : GeoEngine} (source : list HTAN.row) (a b : Geodat.row) :
  In (Proximity.select (a, b)) (Proximity.query source) <->
  In a (Geodat.geodat source) /\ In b (Geodat.geodat source) /\
  SQL.holds (Proximity.on a b) = true.
Proof.
  unfold Proximity.query. rewrite in_map_iff. split.
  - intros [[a' b'] [Heq Hin]]. apply proximity_select_inj in Heq as [-> ->].
    apply JOIN_In in Hin. exact Hin.
  - intros H. exists (a, b). split; [reflexivity|]. apply JOIN_In. exact H.
Qed.

Lemma on_spec `{E : GeoEngine} (r1 r2 : HTAN.row) :
  SQL.holds (Proximity.on (Geodat.select r1) (Geodat.select r2)) = true <->
  exists x1 y1 x2 y2,
    HTAN.X_centroid r1 = Some x1 /\ HTAN.Y_centroid r1 = Some y1 /\
    HTAN.X_centroid r2 = Some x2 /\ HTAN.Y_centroid r2 = Some y2 /\
    ST_DWithin (ST_GeogPoint (x1 / 368570) (y1 / 368570))
               (ST_GeogPoint (x2 / 368570) (y2 / 368570))
               9.29324770787722 = true.
Proof.
  unfold Proximity.on, Geodat.select, Geodat.p, Geo.rescaled_point, Proximity.threshold.
  destruct (HTAN.X_centroid r1) as [x1|], (HTAN.Y_centroid r1) as [y1|],
           (HTAN.X_centroid r2) as [x2|], (HTAN.Y_centroid r2) as [y2|]; simpl;
    (split;
     [ try discriminate
     | try (intros [? [? [? [? [? [? [? [? ?]]]]]]]]; discriminate) ]).
  - intros H. exists x1, y1, x2, y2. repeat split.
    destruct (ST_DWithin _ _ _); [reflexivity | discriminate].
  - intros [? [? [? [? [[= <-] [[= <-] [[= <-] [[= <-] H]]]]]]]].
    rewrite H. reflexivity.
Qed.

Lemma geodat_celltype_spec `{E : GeoEngine} (r : HTAN.row) :
  (Geodat.celltype_of r = "Tumor" <-> tumor_markers r) /\
  (Geodat.celltype_of r = "Other" <-> ~ tumor_markers r).
Proof.
  unfold Geodat.celltype_of.
  rewrite <- marker_condition_spec. apply IF_label.
Qed.

Lemma celltype_of_determined `{E : GeoEngine} (r : HTAN.row) (label : string) :
  (label = "Tumor" <-> tumor_markers r) ->
  (label = "Other" <-> ~ tumor_markers r) ->
  label = Geodat.celltype_of r.
Proof.
  intros Ht Ho. destruct (geodat_celltype_spec r) as [Ht' Ho'].
  unfold Geodat.celltype_of in *.
  match goal with |- context [SQL.IF ?c _ _] => destruct c as [[]|] end; simpl in *.
  - apply Ht, Ht'. reflexivity.
  - apply Ho, Ho'. reflexivity.
  - apply Ho, Ho'. reflexivity.
Qed.

(** C5: the proximity statement emits a pair of records of biospecimen
    HTA7_1_3 if and only if ST_DWithin holds, at the threshold
    9.29324770787722, of their points ST_GeogPoint(X/368570, Y/368570): a
    row is emitted exactly when it carries, for two such records, their
    CellIDs, coordinates, points and labels ('Tumor' under the marker rule,
    'Other' otherwise) and the ST_Distance of the two points. *)
Theorem proximity_query_emits_the_pairs_within_threshold `{E : GeoEngine}
    (source : list HTAN.row) (row : Proximity.row) :
  In row (Proximity.query source) <->
  exists a b x1 y1 x2 y2,
    In a source /\ In b source /\
    HTAN.HTAN_Biospecimen_ID a = Some "HTA7_1_3" /\
    HTAN.HTAN_Biospecimen_ID b = Some "HTA7_1_3" /\
    HTAN.X_centroid a = Some x1 /\ HTAN.Y_centroid a = Some y1 /\
    HTAN.X_centroid b = Some x2 /\ HTAN.Y_centroid b = Some y2 /\
    ST_DWithin (ST_GeogPoint (x1 / 368570) (y1 / 368570))
               (ST_GeogPoint (x2 / 368570) (y2 / 368570))
               9.29324770787722 = true /\
    Proximity.CellID row = HTAN.CellID a /\
    Proximity.X_centroid row = Some x1 /\
    Proximity.Y_centroid row = Some y1 /\
    Proximity.p row = Some (ST_GeogPoint (x1 / 368570) (y1 / 368570)) /\
    (Proximity.celltype row = "Tumor" <-> tumor_markers a) /\
    (Proximity.celltype row = "Other" <-> ~ tumor_markers a) /\
    Proximity.CellID_1 row = HTAN.CellID b /\
    Proximity.X_centroid_1 row = Some x2 /\
    Proximity.Y_centroid_1 row = Some y2 /\
    Proximity.p_1 row = Some (ST_GeogPoint (x2 / 368570) (y2 / 368570)) /\
    (Proximity.celltype_1 row = "Tumor" <-> tumor_markers b) /\
    (Proximity.celltype_1 row = "Other" <-> ~ tumor_markers b) /\
    Proximity.Distance row
    = Some (ST_Distance (ST_GeogPoint (x1 / 368570) (y1 / 368570))
                        (ST_GeogPoint (x2 / 368570) (y2 / 368570))).
Proof.
  split.
  - intros Hrow. unfold Proximity.query in Hrow.
    apply in_map_iff in Hrow as [[ga gb] [<- Hin]].
    apply JOIN_In in Hin as [Ha [Hb Hon]].
    apply geodat_In in Ha as [a [Ha [Hba ->]]].
    apply geodat_In in Hb as [b [Hb [Hbb ->]]].
    apply on_spec in Hon as [x1 [y1 [x2 [y2 [H1 [H2 [H3 [H4 Hd]]]]]]]].
    exists a, b, x1, y1, x2, y2.
    destruct (geodat_celltype_spec a) as [Hta Hoa].
    destruct (geodat_celltype_spec b) as [Htb Hob].
    simpl. unfold Geo.rescaled_point. rewrite H1, H2, H3, H4. simpl.
    repeat split; try assumption;
      first [ apply Hta | apply Hoa | apply Htb | apply Hob ]; assumption.
  - intros (a & b & x1 & y1 & x2 & y2 & Ha & Hb & Hba & Hbb & H1 & H2 & H3 & H4 & Hd
            & F1 & F2 & F3 & F4 & F5 & F5' & F6 & F7 & F8 & F9 & F10 & F10' & F11).
    assert (Hrow : row = Proximity.select (Geodat.select a, Geodat.select b)).
    { pose proof (celltype_of_determined a _ F5 F5') as La.
      pose proof (celltype_of_determined b _ F10 F10') as Lb.
      destruct row. simpl in *. unfold Geo.rescaled_point.
      rewrite H1, H2, H3, H4. simpl. subst. reflexivity. }
    rewrite Hrow. apply proximity_In. repeat split.
    + apply geodat_In. eauto.
    + apply geodat_In. eauto.
    + apply on_spec. exists x1, y1, x2, y2. repeat split; assumption.
Qed.

Lemma on_sym `{L : GeoLaws} (a b : Geodat.row) :
  Proximity.on a b = Proximity.on b a.
Proof.
  unfold Proximity.on, Geo.DWithin.
  destruct (Geodat.p a) as [g1|], (Geodat.p b) as [g2|]; simpl; try reflexivity.
  rewrite ST_DWithin_sym. reflexivity.
Qed.

Lemma threshold_nonneg : PrimFloat.leb 0%float 9.29324770787722%float = true.
Proof. reflexivity. Qed.

Lemma on_refl `{L : GeoLaws} (a : Geodat.row) :
  is_Some (Geodat.p a) -> SQL.holds (Proximity.on a a) = true.
Proof.
  intros [g Hg]. unfold Proximity.on, Geo.DWithin, Proximity.threshold.
  rewrite Hg. simpl. rewrite ST_DWithin_refl; [reflexivity | apply threshold_nonneg].
Qed.

Lemma geodat_point `{E : GeoEngine} (source : list HTAN.row) (a : Geodat.row) :
  In a (Geodat.geodat source) ->
  Geodat.p a = Geo.rescaled_point (Geodat.X_centroid a) (Geodat.Y_centroid a).
Proof.
  intros Ha. apply geodat_In in Ha as [r [_ [_ ->]]]. reflexivity.
Qed.

Lemma rescaled_point_is_Some `{E : GeoEngine} (x y : option float) :
  is_Some x -> is_Some y -> is_Some (Geo.rescaled_point x y).
Proof.
  intros [a ->] [b ->]. simpl. eexists. reflexivity.
Qed.

(** C4, as the statement does it: every row pairs two rows of [geodat]; with
    a row pairing a with b the statement emits the row pairing b with a; and
    every record of the biospecimen whose two coordinates are not NULL is
    paired with itself, at distance zero. *)
Theorem proximity_pairs_are_symmetric `{L : GeoLaws} (source : list HTAN.row) :
  (forall row, In row (Proximity.query source) ->
     exists a b, In a (Geodat.geodat source) /\ In b (Geodat.geodat source) /\
                 row = Proximity.select (a, b)) /\
  (forall a b, In (Proximity.select (a, b)) (Proximity.query source) ->
               In (Proximity.select (b, a)) (Proximity.query source)) /\
  (forall a, In a (Geodat.geodat source) ->
             is_Some (Geodat.X_centroid a) -> is_Some (Geodat.Y_centroid a) ->
             In (Proximity.select (a, a)) (Proximity.query source) /\
             Proximity.Distance (Proximity.select (a, a)) = Some 0%float).
Proof.
  split; [|split].
  - intros row Hrow. unfold Proximity.query in Hrow.
    apply in_map_iff in Hrow as [[a b] [<- Hin]].
    apply JOIN_In in Hin as [Ha [Hb _]]. eauto.
  - intros a b Hab. apply proximity_In in Hab as [Ha [Hb Hon]].
    apply proximity_In. rewrite on_sym. auto.
  - intros a Ha Hx Hy.
    assert (Hp : is_Some (Geodat.p a)).
    { rewrite (geodat_point source a Ha). apply rescaled_point_is_Some; assumption. }
    split.
    + apply proximity_In. repeat split; try assumption. apply on_refl. assumption.
    + destruct Hp as [g Hg]. simpl. rewrite Hg. simpl.
      rewrite ST_Distance_refl. reflexivity.
Qed.

Lemma sample_geodat (r : HTAN.row) :
  In r Grid.sample -> HTAN.HTAN_Biospecimen_ID r = Some "HTA7_1_3" ->
  In (Geodat.select r) (Geodat.geodat Grid.sample).
Proof. intros Hr Hb. apply geodat_In. eauto. Qed.

Lemma proximity_pairs_are_symmetric_witness :
  In (Proximity.select (Geodat.select Grid.outside_tumor, Geodat.select Grid.inside_tumor))
     (Proximity.query Grid.sample) /\
  Proximity.Distance
    (Proximity.select (Geodat.select Grid.inside_tumor, Geodat.select Grid.inside_tumor))
  = Some 0%float.
Proof.
  destruct (proximity_pairs_are_symmetric (L := grid_laws) Grid.sample)
    as [_ [Hsym Hself]].
  split.
  - apply Hsym. apply proximity_In. split; [|split].
    + apply sample_geodat; [left; reflexivity | reflexivity].
    + apply sample_geodat; [right; left; reflexivity | reflexivity].
    + reflexivity.
  - apply (Hself (Geodat.select Grid.inside_tumor)).
    + apply sample_geodat; [left; reflexivity | reflexivity].
    + eexists. reflexivity.
    + eexists. reflexivity.
Defined.

(** C4 as claimed fails on a record without coordinates: it is a row of
    [geodat], and the statement pairs it with nothing, itself included. *)
Lemma unplaced_record_is_not_paired_with_itself :
  In (Geodat.select Grid.unplaced) (Geodat.geodat [Grid.unplaced]) /\
  ~ In (Proximity.select (Geodat.select Grid.unplaced, Geodat.select Grid.unplaced))
       (Proximity.query [Grid.unplaced]).
Proof.
  split.
  - left. reflexivity.
  - rewrite proximity_In. intros [_ [_ Hon]]. vm_compute in Hon. discriminate Hon.
Qed.

(** * The clustering statement (cell 28) *)

Lemma insert_by_Permutation {A} (key : A -> option Z) (x : A) (l : list A) :
  Permutation (insert_by key x l) (x :: l).
Proof.
  induction l as [|y l IH]; simpl; [reflexivity|].
  destruct (key_le (key x) (key y)); [reflexivity|].
  rewrite IH. apply perm_swap.
Qed.

Lemma ORDER_BY_Permutation {A} (key : A -> option Z) (t : list A) :
  Permutation (ORDER_BY key t) t.
Proof.
  induction t as [|x t IH]; simpl; [reflexivity|].
  rewrite insert_by_Permutation. constructor. exact IH.
Qed.

Lemma cluster_condition_spec (r : HTAN.row) :
  SQL.holds (ClusterCells.condition r) = true <->
  HTAN.HTAN_Biospecimen_ID r = Some "HTA7_1_3" /\
  strictly_inside (HTAN.X_centroid r) (HTAN.Y_centroid r) /\
  tumor_markers r.
Proof.
  unfold ClusterCells.condition.
  rewrite <- marker_condition_spec, <- in_region_spec, <- of_biospecimen_spec.
  unfold in_region. rewrite !holds_AND, !andb_true_iff. tauto.
Qed.

(** C6, as the statement does it: the clustering function runs over the
    points of the records of HTA7_1_3 that lie strictly inside the rectangle
    and satisfy the marker rule (not over all records of the biospecimen);
    each point is the one the proximity statement builds for the record,
    ST_GeogPoint(X/368570, Y/368570); the window of every row is the whole
    of these points; and the output has one row per such record, each with a
    cluster id, in some order. *)
Theorem clustering_query_spec `{E : GeoEngine} (source : list HTAN.row) :
  exists keep : HTAN.row -> bool,
    (forall r, keep r = true <->
       HTAN.HTAN_Biospecimen_ID r = Some "HTA7_1_3" /\
       strictly_inside (HTAN.X_centroid r) (HTAN.Y_centroid r) /\
       tumor_markers r) /\
    ClusterCells.cells source = map ClusterCells.select (List.filter keep source) /\
    (forall r,
       ClusterCells.p (ClusterCells.select r) = Geodat.p (Geodat.select r) /\
       ClusterCells.p (ClusterCells.select r)
       = Geo.GeogPoint (SQL.div (HTAN.X_centroid r) (Some 368570%float))
                       (SQL.div (HTAN.Y_centroid r) (Some 368570%float))) /\
    (forall (i : nat) (c : ClusterCells.row),
       ClusterCells.cells source !! i = Some c ->
       Clustering.windowed (ClusterCells.cells source) !! i
       = Some {| Clustering.CellID := ClusterCells.CellID c;
                 Clustering.X_centroid := ClusterCells.X_centroid c;
                 Clustering.Y_centroid := ClusterCells.Y_centroid c;
                 Clustering.cluster_num :=
                   ST_ClusterDBSCAN (map ClusterCells.p (ClusterCells.cells source))
                                    20%float 10%Z i |}) /\
    Permutation (Clustering.query source)
                (Clustering.windowed (ClusterCells.cells source)) /\
    length (Clustering.query source) = length (ClusterCells.cells source).
Proof.
  exists (fun r => SQL.holds (ClusterCells.condition r)).
  split; [|split; [|split; [|split; [|split]]]].
  - intros r. apply cluster_condition_spec.
  - reflexivity.
  - intros r. split; reflexivity.
  - intros i c Hc. unfold Clustering.windowed.
    rewrite list_lookup_imap, Hc. reflexivity.
  - apply ORDER_BY_Permutation.
  - unfold Clustering.query.
    rewrite (Permutation_length (ORDER_BY_Permutation _ _)).
    unfold Clustering.windowed. apply length_imap.
Qed.

(** C6 as claimed fails on the sample: the proximity statement builds three
    points, the clustering function is given one. *)
Lemma clustering_does_not_take_every_record :
  map ClusterCells.p (ClusterCells.cells Grid.sample)
  <> map Geodat.p (Geodat.geodat Grid.sample).
Proof.
  intros H. apply (f_equal (@length _)) in H. vm_compute in H. discriminate H.
Qed.

(** * The neighbour-count statement (cell 23) *)

Lemma filter_all {A} (l : list A) : List.filter (fun _ => true) l = l.
Proof. induction l as [|a l IH]; simpl; [|rewrite IH]; reflexivity. Qed.

Lemma filter_none {A} (l : list A) : List.filter (fun _ => false) l = [].
Proof. induction l as [|a l IH]; simpl; [reflexivity | exact IH]. Qed.

Lemma length_filter_map {A B} (f : B -> bool) (g : A -> B) (l : list A) :
  length (List.filter f (map g l)) = length (List.filter (fun a => f (g a)) l).
Proof. rewrite filter_of_map. apply length_map. Qed.

(** Filtering a join on its left row keeps or drops whole inner lists. *)
Lemma filter_flat_map_pair {A B} (q : A -> bool) (h : A -> list B) (l : list A) :
  List.filter (fun ab : A * B => q (fst ab)) (flat_map (fun a => map (pair a) (h a)) l)
  = flat_map (fun a => if q a then map (pair a) (h a) else []) l.
Proof.
  induction l as [|a l IH]; simpl; [reflexivity|].
  rewrite List.filter_app, IH. f_equal.
  rewrite filter_of_map. simpl.
  destruct (q a); [rewrite filter_all | rewrite filter_none]; reflexivity.
Qed.

Lemma flat_map_skipped {A B} (q : A -> bool) (f : A -> list B) (l : list A) :
  (forall a, In a l -> q a = false) ->
  flat_map (fun a => if q a then f a else []) l = [].
Proof.
  induction l as [|x l IH]; intros Hq; simpl; [reflexivity|].
  rewrite (Hq x (or_introl eq_refl)). simpl. apply IH.
  intros a Ha. apply Hq. right. exact Ha.
Qed.

(** With keys that identify the rows, only one row passes a test on the key. *)
Lemma flat_map_unique_key {A B K} (key : A -> K) (q : A -> bool) (f : A -> list B)
    (l : list A) (a0 : A) :
  List.NoDup (map key l) -> In a0 l -> q a0 = true ->
  (forall a, q a = true -> key a = key a0) ->
  flat_map (fun a => if q a then f a else []) l = f a0.
Proof.
  induction l as [|x l IH]; intros Hnd Hin Hq Hk; [destruct Hin|].
  simpl in Hnd. apply NoDup_cons_iff in Hnd as [Hx Hnd]. simpl.
  destruct Hin as [-> | Hin].
  - rewrite Hq, flat_map_skipped; [apply app_nil_r|].
    intros a Ha. destruct (q a) eqn:Hqa; [|reflexivity].
    exfalso. apply Hx. rewrite <- (Hk a Hqa). apply in_map. exact Ha.
  - destruct (q x) eqn:Hqx.
    + exfalso. apply Hx. rewrite (Hk x Hqx). apply in_map. exact Hin.
    + simpl. apply IH; assumption.
Qed.

Lemma count_unique_key {A K} `{EqDecision K} (key : A -> K) (F : A -> bool)
    (l : list A) (a0 : A) :
  List.NoDup (map key l) -> In a0 l -> F a0 = true ->
  length (List.filter F l)
  = S (length (List.filter (fun b => negb (bool_decide (key b = key a0)) && F b) l)).
Proof.
  induction l as [|x l IH]; intros Hnd Hin HF; [destruct Hin|].
  simpl in Hnd. apply NoDup_cons_iff in Hnd as [Hx Hnd]. simpl.
  destruct Hin as [-> | Hin].
  - rewrite HF, bool_decide_eq_true_2 by reflexivity. simpl. f_equal. f_equal.
    apply filter_ext_in. intros b Hb.
    rewrite bool_decide_eq_false_2; [reflexivity|].
    intros Heq. apply Hx. rewrite <- Heq. apply in_map. exact Hb.
  - rewrite bool_decide_eq_false_2.
    + simpl. destruct (F x); simpl; rewrite (IH Hnd Hin HF); reflexivity.
    + intros Heq. apply Hx. rewrite Heq. apply in_map. exact Hin.
Qed.

Lemma In_remove_dups {K} `{EqDecision K} (k : K) (l : list K) :
  In k (remove_dups l) <-> In k l.
Proof. rewrite <- !list_elem_of_In. apply elem_of_remove_dups. Qed.

Lemma GROUP_BY_In {A K} `{EqDecision K} (key : A -> K) (t : list A) (k : K) (g : list A) :
  In (k, g) (GROUP_BY key t) <->
  In k (map key t) /\ g = List.filter (fun r => bool_decide (key r = k)) t.
Proof.
  unfold GROUP_BY. rewrite in_map_iff. split.
  - intros [k' [Heq Hk]]. injection Heq as -> <-.
    rewrite In_remove_dups in Hk. split; [exact Hk | reflexivity].
  - intros [Hk ->]. exists k. split; [reflexivity|].
    rewrite In_remove_dups. exact Hk.
Qed.

(** C10: the region test of the neighbour-count statement reads the centre's
    coordinates only: replacing the neighbours' coordinates by anything
    leaves its result unchanged.  On the sample, the tumor cell left of the
    region is counted for the tumor cell inside it, whose count is 0 without
    it. *)
Theorem neighbour_position_is_not_restricted `{E : GeoEngine}
    (to : Proximity.row -> option float * option float) (pairs : list Proximity.row) :
  Aggregation.query (map (move_neighbour to) pairs) = Aggregation.query pairs /\
  ~ strictly_inside (HTAN.X_centroid Grid.outside_tumor)
                    (HTAN.Y_centroid Grid.outside_tumor) /\
  Aggregation.query (E := Grid.engine)
    (Proximity.query [Grid.inside_tumor; Grid.outside_tumor])
  = [{| Aggregation.CellID := Some 1%Z; Aggregation.N_Tumor_Cells := 1 |}] /\
  Aggregation.query (E := Grid.engine) (Proximity.query [Grid.inside_tumor])
  = [{| Aggregation.CellID := Some 1%Z; Aggregation.N_Tumor_Cells := 0 |}].
Proof.
  split; [|split; [|split]].
  - unfold Aggregation.query. f_equal. f_equal. f_equal.
    unfold Cellp.cellp. rewrite WHERE_map, map_map. reflexivity.
  - intros [a [b [Ha [Hb [H1 _]]]]]. simpl in Ha. injection Ha as <-.
    vm_compute in H1. discriminate H1.
  - vm_compute. reflexivity.
  - vm_compute. reflexivity.
Qed.

Lemma is_tumor_spec (s : string) :
  SQL.holds (SQL.eqs (Some s) (SQL.lit "Tumor")) = String.eqb s "Tumor".
Proof. unfold SQL.eqs, SQL.lit. apply holds_Some. Qed.

Section NeighbourCounts.
Context `{L : GeoLaws}.
Variable source : list HTAN.row.

(** The test the statement makes on the centre of a pair. *)
Let centre_counts (a : Geodat.row) : bool :=
  SQL.holds (in_region (Geodat.X_centroid a) (Geodat.Y_centroid a))
  && String.eqb (Geodat.celltype a) "Tumor".

Let cp (ab : Geodat.row * Geodat.row) : Cellp.row :=
  Cellp.select (Proximity.select ab).

Let tumor_cellp : list Cellp.row :=
  SQL.WHERE (fun r => SQL.eqs (Some (Cellp.celltype r)) (SQL.lit "Tumor"))
            (Cellp.cellp (Proximity.query source)).

Lemma tumor_cellp_rows :
  tumor_cellp
  = map cp (List.filter (fun ab => centre_counts (fst ab))
                        (SQL.JOIN Proximity.on (Geodat.geodat source) (Geodat.geodat source))).
Proof.
  unfold tumor_cellp, Cellp.cellp, Proximity.query.
  rewrite !WHERE_map. unfold SQL.WHERE. rewrite filter_twice, map_map.
  f_equal. apply filter_ext. intros [a b]. unfold centre_counts.
  rewrite is_tumor_spec. reflexivity.
Qed.

Lemma group_of_key (k : option Z) :
  List.filter (fun r => bool_decide (Cellp.CellID r = k)) tumor_cellp
  = map cp
      (flat_map
         (fun a => if centre_counts a && bool_decide (Geodat.CellID a = k)
                   then map (pair a)
                            (List.filter (fun b => SQL.holds (Proximity.on a b))
                                         (Geodat.geodat source))
                   else [])
         (Geodat.geodat source)).
Proof.
  rewrite tumor_cellp_rows, filter_of_map, filter_twice. f_equal.
  unfold SQL.JOIN.
  rewrite <- (filter_flat_map_pair
                (fun a => centre_counts a && bool_decide (Geodat.CellID a = k))).
  apply filter_ext. intros [a b]. reflexivity.
Qed.

Variable r : HTAN.row.
Hypothesis unique_ids : List.NoDup (map HTAN.CellID (SQL.WHERE of_biospecimen source)).
Hypothesis r_in_source : In r source.
Hypothesis r_of_biospecimen : HTAN.HTAN_Biospecimen_ID r = Some "HTA7_1_3".
Hypothesis r_is_tumor : tumor_markers r.
Hypothesis r_inside : strictly_inside (HTAN.X_centroid r) (HTAN.Y_centroid r).

Lemma r_in_records : In r (SQL.WHERE of_biospecimen source).
Proof.
  apply WHERE_In. split; [exact r_in_source|].
  apply of_biospecimen_spec. exact r_of_biospecimen.
Qed.

Lemma r_in_geodat : In (Geodat.select r) (Geodat.geodat source).
Proof. apply geodat_In. eauto. Qed.

Lemma r_label : Geodat.celltype_of r = "Tumor".
Proof. apply geodat_celltype_spec. exact r_is_tumor. Qed.

Lemma r_centre_counts : centre_counts (Geodat.select r) = true.
Proof.
  unfold centre_counts. simpl. rewrite r_label.
  apply andb_true_iff. split; [|reflexivity].
  apply in_region_spec. exact r_inside.
Qed.

Lemma r_near_itself :
  SQL.holds (Proximity.on (Geodat.select r) (Geodat.select r)) = true.
Proof.
  apply on_refl. simpl.
  destruct r_inside as [x [y [Hx [Hy _]]]].
  apply rescaled_point_is_Some; [rewrite Hx | rewrite Hy]; eexists; reflexivity.
Qed.

Lemma geodat_ids :
  map Geodat.CellID (Geodat.geodat source)
  = map HTAN.CellID (SQL.WHERE of_biospecimen source).
Proof. unfold Geodat.geodat. rewrite map_map. reflexivity. Qed.

(** The group of [r]'s CellID: [r] paired with every record near it. *)
Lemma group_of_r :
  List.filter (fun w => bool_decide (Cellp.CellID w = HTAN.CellID r)) tumor_cellp
  = map cp (map (pair (Geodat.select r))
                (List.filter (fun b => SQL.holds (Proximity.on (Geodat.select r) b))
                             (Geodat.geodat source))).
Proof.
  rewrite group_of_key. f_equal.
  apply (flat_map_unique_key Geodat.CellID
           (fun a => centre_counts a && bool_decide (Geodat.CellID a = HTAN.CellID r))
           (fun a => map (pair a)
                         (List.filter (fun b => SQL.holds (Proximity.on a b))
                                      (Geodat.geodat source)))
           (Geodat.geodat source) (Geodat.select r)).
  - rewrite geodat_ids. exact unique_ids.
  - exact r_in_geodat.
  - rewrite r_centre_counts. simpl. apply bool_decide_eq_true_2. reflexivity.
  - intros a Ha. apply andb_true_iff in Ha as [_ Ha].
    apply bool_decide_eq_true_1 in Ha. exact Ha.
Qed.

Lemma count_of_r :
  Aggregation.count_tumor
    (List.filter (fun w => bool_decide (Cellp.CellID w = HTAN.CellID r)) tumor_cellp)
  = Z.of_nat (length (tumor_neighbours source r)).
Proof.
  rewrite group_of_r. unfold Aggregation.count_tumor, SQL.COUNTIF.
  rewrite map_map, length_filter_map, filter_twice.
  unfold Geodat.geodat. rewrite length_filter_map.
  rewrite (count_unique_key HTAN.CellID _ _ r unique_ids r_in_records).
  - unfold tumor_neighbours.
    rewrite (filter_ext _
               (fun b => negb (bool_decide (HTAN.CellID b = HTAN.CellID r))
                         && SQL.holds (Proximity.on (Geodat.select r) (Geodat.select b))
                         && String.eqb (Geodat.celltype_of b) "Tumor")).
    + lia.
    + intros b. unfold cp. rewrite is_tumor_spec, andb_assoc. reflexivity.
  - unfold cp. rewrite is_tumor_spec, r_near_itself. simpl. rewrite r_label. reflexivity.
Qed.

Lemma r_has_a_group : In (HTAN.CellID r) (map Cellp.CellID tumor_cellp).
Proof.
  change (HTAN.CellID r) with (Cellp.CellID (cp (Geodat.select r, Geodat.select r))).
  apply in_map. rewrite tumor_cellp_rows. apply in_map.
  apply filter_In. split.
  - apply JOIN_In. repeat split; try exact r_in_geodat. exact r_near_itself.
  - exact r_centre_counts.
Qed.

Lemma neighbour_count_of_r :
  In {| Aggregation.CellID := HTAN.CellID r;
        Aggregation.N_Tumor_Cells := Z.of_nat (length (tumor_neighbours source r)) |}
     (Aggregation.query (Proximity.query source)) /\
  (forall row, In row (Aggregation.query (Proximity.query source)) ->
     Aggregation.CellID row = HTAN.CellID r ->
     Aggregation.N_Tumor_Cells row = Z.of_nat (length (tumor_neighbours source r))).
Proof.
  unfold Aggregation.query. fold tumor_cellp. split.
  - apply in_map_iff.
    exists (HTAN.CellID r,
            List.filter (fun w => bool_decide (Cellp.CellID w = HTAN.CellID r)) tumor_cellp).
    split.
    + simpl. rewrite count_of_r. reflexivity.
    + apply GROUP_BY_In. split; [exact r_has_a_group | reflexivity].
  - intros row Hrow Hid. apply in_map_iff in Hrow as [[k g] [<- Hg]].
    apply GROUP_BY_In in Hg as [_ ->]. simpl in Hid. subst k. simpl.
    apply count_of_r.
Qed.

End NeighbourCounts.

(** * The cells *)

Lemma run_job_unconfigured `{E : GeoEngine} (q : statement) (c : cloud) :
  tables (run_job q None c) = tables c /\ datasets (run_job q None c) = datasets c.
Proof.
  unfold run_job. destruct (evaluate q (tables c)); simpl; split; reflexivity.
Qed.

(** A request changes the named tables only through what the service does
    with it. *)
Lemma call_tables `{E : GeoEngine} {A} (rq : request)
    (serve : cloud -> answer (A * cloud)) (k : kernel) :
  (forall c a c', serve c = Done (a, c') -> tables c' = tables c) ->
  tables (remote (ext (snd (call rq serve k)))) = tables (remote (ext k)).
Proof.
  intros Hserve. unfold call.
  destruct (faults (ext k) (length (log (ext k)))); simpl; [reflexivity|].
  destruct (serve (remote (ext k))) as [[a c']|why] eqn:Hs; simpl; [|reflexivity].
  apply (Hserve _ _ _ Hs).
Qed.

Lemma create_dataset_served_tables `{E : GeoEngine} d c a c' :
  create_dataset_served d c = Done (a, c') -> tables c' = tables c.
Proof.
  unfold create_dataset_served.
  destruct (decide (dataset_ref d ∈ datasets c));
    intros H; try discriminate H; injection H as _ <-; reflexivity.
Qed.

Lemma insert_unconfigured_job_served_tables `{E : GeoEngine} q c a c' :
  insert_job_served q None c = Done (a, c') -> tables c' = tables c.
Proof.
  unfold insert_job_served. intros H. injection H as _ <-.
  apply run_job_unconfigured.
Qed.

Lemma query_results_served_tables `{E : GeoEngine} job c a c' :
  query_results_served job c = Done (a, c') -> tables c' = tables c.
Proof.
  unfold query_results_served.
  destruct (jobs c !! job) as [[rows|why]|]; intros H; try discriminate H.
  injection H as _ <-. reflexivity.
Qed.

Lemma read_gbq_served_tables `{E : GeoEngine} q c a c' :
  read_gbq_served q c = Done (a, c') -> tables c' = tables c.
Proof.
  unfold read_gbq_served.
  destruct (evaluate q (tables c)); intros H; try discriminate H.
  injection H as _ <-. apply run_job_unconfigured.
Qed.

(** Sequencing: what holds of the named tables after each part holds after
    the whole. *)
Lemma keeps_tables_bind `{E : GeoEngine} {A B} (m : M A) (f : A -> M B) :
  keeps_tables m -> (forall a, keeps_tables (f a)) -> keeps_tables (bind m f).
Proof.
  intros Hm Hf k. unfold bind. specialize (Hm k).
  destruct (m k) as [[a|e] k']; simpl in *; [|exact Hm].
  rewrite (Hf a k'). exact Hm.
Qed.

Lemma keeps_tables_ret `{E : GeoEngine} {A} (a : A) : keeps_tables (ret a).
Proof. intros k. reflexivity. Qed.

Lemma keeps_tables_load `{E : GeoEngine} {A} name (get : namespace -> option A) :
  keeps_tables (load name get).
Proof. intros k. unfold load. destruct (get (ns k)); reflexivity. Qed.

Lemma keeps_tables_store `{E : GeoEngine} set : keeps_tables (store set).
Proof. intros k. reflexivity. Qed.

Lemma keeps_tables_setenv `{E : GeoEngine} name value : keeps_tables (setenv name value).
Proof. intros k. reflexivity. Qed.

Lemma keeps_tables_getenv `{E : GeoEngine} name : keeps_tables (getenv name).
Proof. intros k. reflexivity. Qed.

Lemma keeps_tables_read_gbq `{E : GeoEngine} q p : keeps_tables (read_gbq q p).
Proof. intros k. apply call_tables. apply read_gbq_served_tables. Qed.

Lemma keeps_tables_create_dataset `{E : GeoEngine} d ok :
  keeps_tables (create_dataset d ok).
Proof.
  intros k. unfold create_dataset.
  destruct (faults (ext k) (length (log (ext k)))); simpl; [reflexivity|].
  destruct (create_dataset_served d (remote (ext k))) as [[a c']|why] eqn:Hs; simpl.
  - apply (create_dataset_served_tables _ _ _ _ Hs).
  - destruct ok; reflexivity.
Qed.

Lemma keeps_tables_unconfigured_query `{E : GeoEngine} q :
  keeps_tables (client_query q None).
Proof. intros k. apply call_tables. apply insert_unconfigured_job_served_tables. Qed.

Lemma keeps_tables_result `{E : GeoEngine} job : keeps_tables (result job).
Proof. intros k. apply call_tables. apply query_results_served_tables. Qed.

Create HintDb tables discriminated.
#[global] Hint Resolve keeps_tables_ret keeps_tables_load keeps_tables_store
  keeps_tables_setenv keeps_tables_getenv keeps_tables_read_gbq
  keeps_tables_create_dataset keeps_tables_unconfigured_query
  keeps_tables_result : tables.

Ltac keeps_tables :=
  repeat (apply keeps_tables_bind; [|intros ?]); auto with tables.

(** C1, on the code: cell 19 submits the proximity statement without a job
    configuration, so whatever the project holds, no named table is created,
    overwritten or appended to; the table the notebook's text announces and
    cell 21 reads is the same after the cell as before it. *)
Theorem cell19_writes_no_table `{E : GeoEngine} (k : kernel) :
  tables (remote (ext (snd (run Cell19 k)))) = tables (remote (ext k)).
Proof.
  revert k. change (keeps_tables cell19). unfold cell19. keeps_tables.
Qed.

(** With the configuration cell 19 leaves commented out, the same request
    does write the destination table, replacing what it held. *)
Lemma configured_job_overwrites `{E : GeoEngine} (q : statement) (dest : string)
    (c : cloud) (rows : rowset) :
  evaluate q (tables c) = Done rows ->
  tables (run_job q (Some {| destination := dest; write_disposition := WRITE_TRUNCATE |}) c)
  !! dest = Some rows.
Proof.
  intros Hq. unfold run_job. rewrite Hq. simpl.
  destruct (tables c !! dest); simpl; apply lookup_insert_eq.
Qed.

(** On a project that holds only the source table, after cells 8, 17 and 19
    the pairs table still does not exist, and cell 21 fails on it. *)
Lemma cell21_finds_no_table_after_cell19 :
  let k := after [Cell8; Cell17; Cell19] (fresh_kernel (E := Grid.engine) Grid.sample) in
  fst (run Cell19 (after [Cell8; Cell17] (fresh_kernel Grid.sample))) = Ok tt /\
  tables (remote (ext k)) !! pairs_table "isb-cgc-outreach" = None /\
  fst (run Cell21 k) = Raise (GoogleAPIError "notFound").
Proof.
  cbv zeta. split; [|split]; reflexivity.
Qed.



Lemma cell28_reads_fresh_clusters `{E : GeoEngine} (k : kernel) :
  fst (run Cell28 k) = Ok tt ->
  exists source,
    tables (remote (ext k)) !! source_table = Some (Cells source) /\
    df (ns (snd (run Cell28 k))) = Some (Clusters (Clustering.query source)).
Proof.
  unfold run, cell28, bind, store, load, read_gbq, call, read_gbq_served,
    evaluate, scan_cells. simpl.
  destruct (project_id (ns k)); simpl; [|discriminate].
  destruct (faults (ext k) (length (log (ext k)))); simpl; [discriminate|].
  destruct (tables (remote (ext k)) !! source_table) as [[]|]; simpl;
    try discriminate.
  intros _. eexists. split; reflexivity.
Qed.






Lemma cell23_reads_counts `{E : GeoEngine} (k : kernel) :
  fst (run Cell23 k) = Ok tt ->
  exists project pairs,
    client (ns k) = Some project /\
    tables (remote (ext k)) !! pairs_table project = Some (Pairs pairs) /\
    df1 (ns (snd (run Cell23 k))) = Some (Counts (Aggregation.query pairs)).
Proof.
  unfold run, cell23, bind, store, load, read_gbq, call, read_gbq_served,
    evaluate, scan_pairs. simpl.
  destruct (client (ns k)) as [project|]; simpl; [|discriminate].
  destruct (project_id (ns k)); simpl; [|discriminate].
  destruct (faults (ext k) (length (log (ext k)))); simpl; [discriminate|].
  destruct (tables (remote (ext k)) !! pairs_table project) as [[]|] eqn:Ht; simpl;
    try discriminate.
  intros _. eexists _, _. split; [reflexivity|]. split; [exact Ht | reflexivity].
Qed.

Lemma proximity_row_In `{E : GeoEngine} (source : list HTAN.row) (row : Proximity.row) :
  In row (Proximity.query source) <->
  exists a b,
    In a source /\ In b source /\
    HTAN.HTAN_Biospecimen_ID a = Some "HTA7_1_3" /\
    HTAN.HTAN_Biospecimen_ID b = Some "HTA7_1_3" /\
    SQL.holds (Proximity.on (Geodat.select a) (Geodat.select b)) = true /\
    row = Proximity.select (Geodat.select a, Geodat.select b).
Proof.
  split.
  - intros Hrow. unfold Proximity.query in Hrow.
    apply in_map_iff in Hrow as [[ga gb] [<- Hin]].
    apply JOIN_In in Hin as [Ha [Hb Hon]].
    apply geodat_In in Ha as [a [Ha [Hba ->]]].
    apply geodat_In in Hb as [b [Hb [Hbb ->]]].
    exists a, b. repeat split; assumption.
  - intros [a [b [Ha [Hb [Hba [Hbb [Hon ->]]]]]]].
    apply proximity_In. repeat split; try assumption; apply geodat_In; eauto.
Qed.

Lemma counted_rows `{E : GeoEngine} (pairs : list Proximity.row) :
  SQL.WHERE (fun r => SQL.eqs (Some (Cellp.celltype r)) (SQL.lit "Tumor"))
            (Cellp.cellp pairs)
  = map Cellp.select (List.filter counted_centre pairs).
Proof.
  unfold Cellp.cellp. rewrite WHERE_map. unfold SQL.WHERE.
  rewrite filter_twice. f_equal. apply filter_ext. intros r.
  unfold counted_centre. rewrite is_tumor_spec. reflexivity.
Qed.

Lemma counted_centre_spec `{E : GeoEngine} (r : Proximity.row) :
  counted_centre r = true <->
  Proximity.celltype r = "Tumor" /\
  strictly_inside (Proximity.X_centroid r) (Proximity.Y_centroid r).
Proof.
  unfold counted_centre. rewrite andb_true_iff, in_region_spec, String.eqb_eq. tauto.
Qed.

Lemma aggregation_keys `{E : GeoEngine} (pairs : list Proximity.row) :
  map Aggregation.CellID (Aggregation.query pairs)
  = remove_dups (map Proximity.CellID (List.filter counted_centre pairs)).
Proof.
  unfold Aggregation.query, GROUP_BY. rewrite counted_rows, !map_map. simpl.
  rewrite map_id. reflexivity.
Qed.

Lemma sample_ids_are_unique :
  List.NoDup (map HTAN.CellID (SQL.WHERE of_biospecimen Grid.sample)).
Proof.
  change (List.NoDup [Some 1%Z; Some 2%Z; Some 3%Z]).
  repeat constructor; simpl; intuition discriminate.
Qed.

Lemma inside_tumor_is_tumor : tumor_markers Grid.inside_tumor.
Proof.
  split; [|left]; eexists; (split; [reflexivity|]); reflexivity.
Qed.

Lemma inside_tumor_is_inside :
  strictly_inside (HTAN.X_centroid Grid.inside_tumor) (HTAN.Y_centroid Grid.inside_tumor).
Proof.
  eexists _, _. repeat split; reflexivity.
Qed.

Lemma NoDup_map_inj {A K} (key : A -> K) (l : list A) (a b : A) :
  List.NoDup (map key l) -> In a l -> In b l -> key a = key b -> a = b.
Proof.
  induction l as [|x l IH]; intros Hnd Ha Hb Hk; [destruct Ha|].
  simpl in Hnd. apply NoDup_cons_iff in Hnd as [Hx Hnd].
  destruct Ha as [-> | Ha], Hb as [-> | Hb].
  - reflexivity.
  - exfalso. apply Hx. rewrite Hk. apply in_map. exact Hb.
  - exfalso. apply Hx. rewrite <- Hk. apply in_map. exact Ha.
  - apply IH; assumption.
Qed.

(** A CellID the neighbour-count statement returns is that of a record
    labelled 'Tumor' whose centroid lies strictly inside the rectangle. *)
Lemma counted_ids_are_tumors_inside `{E : GeoEngine} (source : list HTAN.row) (r : HTAN.row) :
  List.NoDup (map HTAN.CellID (SQL.WHERE of_biospecimen source)) ->
  In r source ->
  HTAN.HTAN_Biospecimen_ID r = Some "HTA7_1_3" ->
  In (HTAN.CellID r)
     (map Aggregation.CellID (Aggregation.query (Proximity.query source))) ->
  tumor_markers r /\ strictly_inside (HTAN.X_centroid r) (HTAN.Y_centroid r).
Proof.
  intros Hids Hr Hbio. rewrite aggregation_keys, In_remove_dups, in_map_iff.
  intros [p [Hid Hp]]. apply filter_In in Hp as [Hp Hc].
  apply counted_centre_spec in Hc as [Hlabel Hinside].
  apply proximity_row_In in Hp as (a & b & Ha & _ & Hba & _ & _ & ->).
  simpl in Hid, Hlabel, Hinside.
  assert (Heq : a = r).
  { apply (NoDup_map_inj HTAN.CellID (SQL.WHERE of_biospecimen source)); try assumption;
      apply WHERE_In; split; try assumption; apply of_biospecimen_spec; assumption. }
  subst a. split; [apply geodat_celltype_spec; exact Hlabel | exact Hinside].
Qed.

(** Every row the neighbour-count statement returns has the CellID of a
    record of the biospecimen. *)
Lemma counted_ids_are_records `{E : GeoEngine} (source : list HTAN.row)
    (row : Aggregation.row) :
  In row (Aggregation.query (Proximity.query source)) ->
  exists r, In r source /\ HTAN.HTAN_Biospecimen_ID r = Some "HTA7_1_3" /\
            Aggregation.CellID row = HTAN.CellID r.
Proof.
  intros Hrow. apply (in_map Aggregation.CellID) in Hrow.
  rewrite aggregation_keys, In_remove_dups, in_map_iff in Hrow.
  destruct Hrow as [p [Hid Hp]]. apply filter_In in Hp as [Hp _].
  apply proximity_row_In in Hp as (a & b & Ha & _ & Hba & _ & _ & ->).
  exists a. split; [exact Ha|]. split; [exact Hba|]. rewrite <- Hid. reflexivity.
Qed.

(** C3, as the statement does it: let CellID identify the records of the
    biospecimen and let the pairs be those the proximity statement emits.
    For a record of the biospecimen, the statement returns a row with the
    record's CellID if and only if the record is labelled 'Tumor' and its
    centroid lies strictly inside the rectangle: a record labelled 'Tumor'
    outside the rectangle gets no row, and neither does a record labelled
    'Other'.  Every row with the record's CellID counts the other records of
    the biospecimen within the threshold that are labelled 'Tumor', the
    record itself left out; the statement returns no row but for such
    records.  When cell 23 completes, [df1] holds the statement's result over
    the stored pairs table. *)
Theorem neighbour_counts_spec `{L : GeoLaws} (source : list HTAN.row) (r : HTAN.row) :
  List.NoDup (map HTAN.CellID (SQL.WHERE of_biospecimen source)) ->
  In r source ->
  HTAN.HTAN_Biospecimen_ID r = Some "HTA7_1_3" ->
  (In (HTAN.CellID r)
      (map Aggregation.CellID (Aggregation.query (Proximity.query source))) <->
   tumor_markers r /\ strictly_inside (HTAN.X_centroid r) (HTAN.Y_centroid r)) /\
  (tumor_markers r /\ strictly_inside (HTAN.X_centroid r) (HTAN.Y_centroid r) ->
   In {| Aggregation.CellID := HTAN.CellID r;
         Aggregation.N_Tumor_Cells := Z.of_nat (length (tumor_neighbours source r)) |}
      (Aggregation.query (Proximity.query source))) /\
  (forall row, In row (Aggregation.query (Proximity.query source)) ->
     Aggregation.CellID row = HTAN.CellID r ->
     Aggregation.N_Tumor_Cells row = Z.of_nat (length (tumor_neighbours source r))) /\
  (forall row, In row (Aggregation.query (Proximity.query source)) ->
     exists r', In r' source /\ HTAN.HTAN_Biospecimen_ID r' = Some "HTA7_1_3" /\
                Aggregation.CellID row = HTAN.CellID r' /\
                tumor_markers r' /\
                strictly_inside (HTAN.X_centroid r') (HTAN.Y_centroid r')) /\
  (forall k : kernel,
     fst (run Cell23 k) = Ok tt ->
     exists project pairs,
       client (ns k) = Some project /\
       tables (remote (ext k)) !! pairs_table project = Some (Pairs pairs) /\
       df1 (ns (snd (run Cell23 k))) = Some (Counts (Aggregation.query pairs))).
Proof.
  intros Hids Hr Hbio.
  pose proof (counted_ids_are_tumors_inside source r Hids Hr Hbio) as Hback.
  split; [|split; [|split; [|split]]].
  - split; [exact Hback|]. intros [Htumor Hinside].
    destruct (neighbour_count_of_r source r Hids Hr Hbio Htumor Hinside) as [Hrow _].
    apply (in_map Aggregation.CellID) in Hrow. exact Hrow.
  - intros [Htumor Hinside].
    apply (neighbour_count_of_r source r Hids Hr Hbio Htumor Hinside).
  - intros row Hrow Hid.
    destruct Hback as [Htumor Hinside].
    { rewrite <- Hid. apply in_map. exact Hrow. }
    apply (neighbour_count_of_r source r Hids Hr Hbio Htumor Hinside); assumption.
  - intros row Hrow.
    destruct (counted_ids_are_records source row Hrow) as [r' [Hr' [Hbio' Hid]]].
    exists r'. split; [exact Hr'|]. split; [exact Hbio'|]. split; [exact Hid|].
    apply (counted_ids_are_tumors_inside source r' Hids Hr' Hbio').
    rewrite <- Hid. apply in_map. exact Hrow.
  - apply cell23_reads_counts.
Qed.

(** On the sample, the tumor cell inside the rectangle gets its row, with
    one neighbour: the tumor cell outside the rectangle. *)
Lemma neighbour_counts_spec_witness :
  In {| Aggregation.CellID := Some 1%Z; Aggregation.N_Tumor_Cells := 1 |}
     (Aggregation.query (Proximity.query (E := Grid.engine) Grid.sample)).
Proof.
  exact (proj1 (proj2 (neighbour_counts_spec (L := grid_laws) Grid.sample
                         Grid.inside_tumor
                         sample_ids_are_unique (or_introl eq_refl) eq_refl))
               (conj inside_tumor_is_tumor inside_tumor_is_inside)).
Defined.

(** C3 as claimed fails on the tumor cell left of the rectangle: it is
    labelled 'Tumor' and has a tumor cell within the threshold, and the
    statement returns no row for its CellID. *)
Lemma tumor_outside_the_region_gets_no_count :
  Geodat.celltype (Geodat.select Grid.outside_tumor) = "Tumor" /\
  In (Proximity.select (Geodat.select Grid.outside_tumor, Geodat.select Grid.inside_tumor))
     (Proximity.query Grid.sample) /\
  ~ In (HTAN.CellID Grid.outside_tumor)
       (map Aggregation.CellID (Aggregation.query (Proximity.query Grid.sample))).
Proof.
  split; [reflexivity|]. split.
  - apply proximity_In. split; [|split].
    + apply sample_geodat; [right; left; reflexivity | reflexivity].
    + apply sample_geodat; [left; reflexivity | reflexivity].
    + reflexivity.
  - vm_compute. intros [H|[]]. discriminate H.
Qed.

(** * What the cells do with a failure *)

Lemma unhandled_weaken `{E : GeoEngine} {A} (P Q : request * option string -> Prop)
    (m : M A) :
  (forall entry, P entry -> Q entry) -> unhandled P m -> unhandled Q m.
Proof.
  intros HPQ Hm k. destruct (Hm k) as [new [Hlog Hout]].
  exists new. split; [exact Hlog|].
  destruct (fst (m k)) as [a|[name|key|why]];
    try (eapply Forall_impl; [exact Hout | exact HPQ]).
  destruct Hout as [rq [rest [-> Hrest]]]. exists rq, rest.
  split; [reflexivity|]. eapply Forall_impl; [exact Hrest | exact HPQ].
Qed.

Lemma unhandled_ret `{E : GeoEngine} {A} P (a : A) : unhandled P (ret a).
Proof. intros k. exists []. split; [reflexivity | constructor]. Qed.

Lemma unhandled_load `{E : GeoEngine} {A} P name (get : namespace -> option A) :
  unhandled P (load name get).
Proof.
  intros k. exists []. unfold load.
  destruct (get (ns k)); split; try reflexivity; constructor.
Qed.

Lemma unhandled_store `{E : GeoEngine} P set : unhandled P (store set).
Proof. intros k. exists []. split; [reflexivity | constructor]. Qed.

Lemma unhandled_setenv `{E : GeoEngine} P name value : unhandled P (setenv name value).
Proof. intros k. exists []. split; [reflexivity | constructor]. Qed.

Lemma unhandled_getenv `{E : GeoEngine} P name : unhandled P (getenv name).
Proof. intros k. exists []. split; [reflexivity | constructor]. Qed.


Lemma unhandled_call `{E : GeoEngine} {A} (rq : request)
    (serve : cloud -> answer (A * cloud)) :
  unhandled (fun entry => snd entry = None) (call rq serve).
Proof.
  intros k. unfold call.
  destruct (faults (ext k) (length (log (ext k)))) as [why|]; simpl.
  - exists [(rq, Some why)]. split; [reflexivity|].
    exists rq, []. split; [reflexivity | constructor].
  - destruct (serve (remote (ext k))) as [[a c]|why]; simpl.
    + exists [(rq, None)]. split; [reflexivity|]. repeat constructor.
    + exists [(rq, Some why)]. split; [reflexivity|].
      exists rq, []. split; [reflexivity | constructor].
Qed.

Lemma create_dataset_served_refusal `{E : GeoEngine} d c why :
  create_dataset_served d c = Failed why -> why = "duplicate".
Proof.
  unfold create_dataset_served. destruct (decide (dataset_ref d ∈ datasets c));
    intros H; [injection H as <-; reflexivity | discriminate H].
Qed.

(** The one place a failure is caught: the refusal stays in the log and the
    call returns. *)
Lemma unhandled_create_dataset `{E : GeoEngine} (d : Dataset) :
  unhandled (fun entry => snd entry = None \/
                          exists d, entry = (CreateDataset d true, Some "duplicate"))
            (create_dataset d true).
Proof.
  intros k. unfold create_dataset.
  destruct (faults (ext k) (length (log (ext k)))) as [why|]; simpl.
  - exists [(CreateDataset d true, Some why)]. split; [reflexivity|].
    eexists _, []. split; [reflexivity | constructor].
  - destruct (create_dataset_served d (remote (ext k))) as [[a c]|why] eqn:Hs; simpl.
    + exists [(CreateDataset d true, None)]. split; [reflexivity|].
      constructor; [left; reflexivity | constructor].
    + apply create_dataset_served_refusal in Hs as ->.
      exists [(CreateDataset d true, Some "duplicate")]. split; [reflexivity|].
      constructor; [right; eexists; reflexivity | constructor].
Qed.

Lemma unhandled_bind `{E : GeoEngine} {A B} P (m : M A) (f : A -> M B) :
  unhandled P m -> (forall a, unhandled P (f a)) -> unhandled P (bind m f).
Proof.
  intros Hm Hf k. unfold bind. destruct (Hm k) as [new1 [Hlog1 Hout1]].
  destruct (m k) as [[a|e] k'] eqn:Hmk; simpl in *.
  - destruct (Hf a k') as [new2 [Hlog2 Hout2]].
    exists (new2 ++ new1)%list. split.
    + rewrite Hlog2, Hlog1. apply app_assoc.
    + destruct (fst (f a k')) as [b|[name|key|why]];
        try (apply Forall_app; split; assumption).
      destruct Hout2 as [rq [rest [-> Hrest]]].
      exists rq, (rest ++ new1)%list. split; [reflexivity|].
      apply Forall_app. split; assumption.
  - exists new1. split; assumption.
Qed.

Ltac unhandled :=
  first [ apply unhandled_ret | apply unhandled_load | apply unhandled_store
        | apply unhandled_setenv | apply unhandled_getenv
        | apply unhandled_call | apply unhandled_create_dataset
        | (eapply unhandled_weaken; [|apply unhandled_call]);
          intros ? ?; left; assumption
        | apply unhandled_bind; [unhandled | intros ?; unhandled] ].



Local Arguments create_dataset_served : simpl never.
Local Arguments insert_job_served : simpl never.
Local Arguments query_results_served : simpl never.
Local Arguments read_gbq_served : simpl never.










(** * Further facts about the statements *)

Lemma celltype_of_is_a_label `{E : GeoEngine} (r : HTAN.row) :
  Geodat.celltype_of r = "Tumor" \/ Geodat.celltype_of r = "Other".
Proof.
  unfold Geodat.celltype_of.
  match goal with |- context [SQL.IF ?c _ _] => destruct c as [[]|] end; simpl; auto.
Qed.

(** X1: a row of the proximity statement has no NULL among the centre's and
    the neighbour's coordinates and points, nor in its distance, and both of
    its labels are 'Tumor' or 'Other'. *)
Theorem proximity_rows_are_complete `{E : GeoEngine}
    (source : list HTAN.row) (row : Proximity.row) :
  In row (Proximity.query source) ->
  is_Some (Proximity.X_centroid row) /\ is_Some (Proximity.Y_centroid row) /\
  is_Some (Proximity.p row) /\
  is_Some (Proximity.X_centroid_1 row) /\ is_Some (Proximity.Y_centroid_1 row) /\
  is_Some (Proximity.p_1 row) /\
  is_Some (Proximity.Distance row) /\
  (Proximity.celltype row = "Tumor" \/ Proximity.celltype row = "Other") /\
  (Proximity.celltype_1 row = "Tumor" \/ Proximity.celltype_1 row = "Other").
Proof.
  intros Hrow. apply proximity_row_In in Hrow
    as [a [b [_ [_ [_ [_ [Hon ->]]]]]]].
  apply on_spec in Hon as [x1 [y1 [x2 [y2 [H1 [H2 [H3 [H4 _]]]]]]]].
  simpl. rewrite H1, H2, H3, H4. simpl.
  repeat split; try (eexists; reflexivity); apply celltype_of_is_a_label.
Qed.

Lemma sample_pair_is_emitted :
  In (Proximity.select (Geodat.select Grid.inside_tumor, Geodat.select Grid.outside_tumor))
     (Proximity.query Grid.sample).
Proof.
  apply proximity_In. split; [|split].
  - apply sample_geodat; [left; reflexivity | reflexivity].
  - apply sample_geodat; [right; left; reflexivity | reflexivity].
  - reflexivity.
Qed.

Lemma proximity_rows_are_complete_witness :
  is_Some (Proximity.Distance
             (Proximity.select (Geodat.select Grid.inside_tumor,
                                Geodat.select Grid.outside_tumor))).
Proof.
  exact (proj1 (proj2 (proj2 (proj2 (proj2 (proj2 (proj2
           (proximity_rows_are_complete Grid.sample _ sample_pair_is_emitted)))))))).
Defined.

Lemma JOIN_length {A B} (c : A -> B -> option bool) (t1 : list A) (t2 : list B) :
  length (SQL.JOIN c t1 t2) <= length t1 * length t2.
Proof.
  unfold SQL.JOIN. induction t1 as [|a t1 IH]; simpl; [lia|].
  rewrite length_app, length_map.
  pose proof (List.filter_length_le (fun b => SQL.holds (c a b)) t2). lia.
Qed.

(** X2: the proximity statement returns at most n * n rows for the n records
    of the biospecimen in the source table, itself at most the table's
    size. *)
Theorem proximity_query_is_at_most_quadratic `{E : GeoEngine} (source : list HTAN.row) :
  length (Proximity.query source)
  <= length (Geodat.geodat source) * length (Geodat.geodat source) /\
  length (Geodat.geodat source) = length (SQL.WHERE of_biospecimen source) /\
  length (Geodat.geodat source) <= length source.
Proof.
  unfold Proximity.query, Geodat.geodat. rewrite !length_map. split; [|split].
  - rewrite <- (length_map Geodat.select). apply JOIN_length.
  - reflexivity.
  - apply List.filter_length_le.
Qed.

(** ** The neighbour-count statement over any stored pairs table *)

Lemma aggregation_row `{E : GeoEngine} (pairs : list Proximity.row)
    (row : Aggregation.row) :
  In row (Aggregation.query pairs) ->
  In (Aggregation.CellID row) (map Proximity.CellID (List.filter counted_centre pairs)) /\
  Aggregation.N_Tumor_Cells row
  = (Z.of_nat (length (List.filter
       (fun p => counted_centre p
                 && bool_decide (Proximity.CellID p = Aggregation.CellID row)
                 && String.eqb (Proximity.celltype_1 p) "Tumor") pairs)) - 1)%Z.
Proof.
  unfold Aggregation.query. rewrite counted_rows. intros Hrow.
  apply in_map_iff in Hrow as [[k g] [<- Hg]].
  apply GROUP_BY_In in Hg as [Hk ->]. simpl. split.
  - rewrite map_map in Hk. exact Hk.
  - unfold Aggregation.count_tumor, SQL.COUNTIF.
    rewrite filter_of_map, length_filter_map, !filter_twice.
    do 3 f_equal. apply filter_ext. intros p.
    rewrite is_tumor_spec, andb_assoc. reflexivity.
Qed.

(** X3: over any stored pairs table, a row of the neighbour-count statement
    belongs to a stored pair whose centre is labelled 'Tumor' and lies
    strictly inside the rectangle, and its count is the number of stored
    pairs with such a centre, that CellID and a 'Tumor' neighbour, minus
    one. *)
Theorem aggregation_rows_spec `{E : GeoEngine} (pairs : list Proximity.row)
    (row : Aggregation.row) :
  In row (Aggregation.query pairs) ->
  (exists p, In p pairs /\
             Proximity.CellID p = Aggregation.CellID row /\
             Proximity.celltype p = "Tumor" /\
             strictly_inside (Proximity.X_centroid p) (Proximity.Y_centroid p)) /\
  Aggregation.N_Tumor_Cells row
  = (Z.of_nat (length (List.filter
       (fun p => counted_centre p
                 && bool_decide (Proximity.CellID p = Aggregation.CellID row)
                 && String.eqb (Proximity.celltype_1 p) "Tumor") pairs)) - 1)%Z.
Proof.
  intros Hrow. destruct (aggregation_row pairs row Hrow) as [Hk Hn].
  split; [|exact Hn].
  apply in_map_iff in Hk as [p [Hid Hp]]. apply filter_In in Hp as [Hp Hc].
  apply counted_centre_spec in Hc as [Ht Hin]. exists p. auto.
Qed.

Lemma sample_count_row :
  In {| Aggregation.CellID := Some 1%Z; Aggregation.N_Tumor_Cells := 1 |}
     (Aggregation.query (Proximity.query (E := Grid.engine) Grid.sample)).
Proof. left. reflexivity. Qed.

Lemma aggregation_rows_spec_witness :
  exists p, In p (Proximity.query (E := Grid.engine) Grid.sample) /\
            Proximity.CellID p = Some 1%Z /\
            Proximity.celltype p = "Tumor" /\
            strictly_inside (Proximity.X_centroid p) (Proximity.Y_centroid p).
Proof.
  exact (proj1 (aggregation_rows_spec _ _ sample_count_row)).
Defined.

(** X4: the neighbour-count statement returns one row per CellID, and it
    returns a row for the CellID of every stored pair whose centre is
    labelled 'Tumor' and lies strictly inside the rectangle. *)
Theorem aggregation_has_one_row_per_centre `{E : GeoEngine} (pairs : list Proximity.row) :
  List.NoDup (map Aggregation.CellID (Aggregation.query pairs)) /\
  (forall p, In p pairs ->
     Proximity.celltype p = "Tumor" ->
     strictly_inside (Proximity.X_centroid p) (Proximity.Y_centroid p) ->
     In (Proximity.CellID p) (map Aggregation.CellID (Aggregation.query pairs))).
Proof.
  rewrite aggregation_keys. split.
  - apply NoDup_ListNoDup, NoDup_remove_dups.
  - intros p Hp Ht Hin. apply In_remove_dups. apply in_map.
    apply filter_In. split; [exact Hp|]. apply counted_centre_spec. auto.
Qed.

Lemma filter_has {A} (f : A -> bool) (l : list A) (x : A) :
  In x l -> f x = true -> 1 <= length (List.filter f l).
Proof.
  intros Hx Hf. assert (Hin : In x (List.filter f l)) by (apply filter_In; auto).
  destruct (List.filter f l); [destruct Hin | simpl; lia].
Qed.

(** X5: over the pairs the proximity statement emits, no count is negative:
    the pair of a counted centre with itself is always among them. *)
Theorem neighbour_counts_are_not_negative `{L : GeoLaws}
    (source : list HTAN.row) (row : Aggregation.row) :
  In row (Aggregation.query (Proximity.query source)) ->
  (0 <= Aggregation.N_Tumor_Cells row)%Z.
Proof.
  intros Hrow. destruct (aggregation_row _ row Hrow) as [Hk ->].
  apply in_map_iff in Hk as [p [Hid Hp]]. apply filter_In in Hp as [Hp Hc].
  unfold Proximity.query in Hp. apply in_map_iff in Hp as [[a b] [<- Hab]].
  apply JOIN_In in Hab as [Ha [Hb Hon]].
  assert (Hself : In (Proximity.select (a, a)) (Proximity.query source)).
  { apply proximity_In. split; [exact Ha|]. split; [exact Ha|].
    apply on_refl. rewrite (geodat_point source a Ha).
    apply counted_centre_spec in Hc as [_ [x [y [Hx [Hy _]]]]]. simpl in Hx, Hy.
    apply rescaled_point_is_Some; [rewrite Hx | rewrite Hy]; eexists; reflexivity. }
  enough (1 <= length (List.filter
            (fun p => counted_centre p
                      && bool_decide (Proximity.CellID p = Aggregation.CellID row)
                      && String.eqb (Proximity.celltype_1 p) "Tumor")
            (Proximity.query source))) by lia.
  apply (filter_has _ _ (Proximity.select (a, a)) Hself).
  apply counted_centre_spec in Hc as Hc'. destruct Hc' as [Ht _].
  apply andb_true_iff. split; [apply andb_true_iff; split|].
  - exact Hc.
  - apply bool_decide_eq_true_2. exact Hid.
  - simpl in *. rewrite Ht. reflexivity.
Qed.

Lemma neighbour_counts_are_not_negative_witness :
  (0 <= Aggregation.N_Tumor_Cells
          {| Aggregation.CellID := Some 1%Z; Aggregation.N_Tumor_Cells := 1 |})%Z.
Proof.
  exact (neighbour_counts_are_not_negative (L := grid_laws) Grid.sample _ sample_count_row).
Defined.

(** ** The clustering statement's order and input *)

Lemma key_le_spec (a b : option Z) : key_le a b = true <-> nulls_first_le a b.
Proof.
  destruct a as [x|], b as [y|]; simpl; try tauto; try (split; [discriminate | tauto]).
  apply Z.leb_le.
Qed.

Lemma nulls_first_le_total (a b : option Z) :
  key_le a b = false -> nulls_first_le b a.
Proof.
  destruct a as [x|], b as [y|]; simpl; try discriminate; try tauto.
  intros H. apply Z.leb_gt in H. lia.
Qed.

Lemma nulls_first_le_trans (a b c : option Z) :
  nulls_first_le a b -> nulls_first_le b c -> nulls_first_le a c.
Proof.
  destruct a as [x|], b as [y|], c as [z|]; simpl; try tauto. lia.
Qed.

Lemma insert_by_sorted {A} (key : A -> option Z) (x : A) (l : list A) :
  StronglySorted (fun a b => nulls_first_le (key a) (key b)) l ->
  StronglySorted (fun a b => nulls_first_le (key a) (key b)) (insert_by key x l).
Proof.
  induction l as [|y l IH]; intros Hl; simpl.
  - constructor; constructor.
  - apply StronglySorted_inv in Hl as [Hl Hy].
    destruct (key_le (key x) (key y)) eqn:Hxy.
    + apply key_le_spec in Hxy. constructor.
      * constructor; assumption.
      * constructor; [exact Hxy|].
        eapply Forall_impl; [exact Hy|].
        intros z Hz. simpl in Hz. eapply nulls_first_le_trans; eassumption.
    + apply nulls_first_le_total in Hxy. constructor; [apply IH; exact Hl|].
      apply (Permutation_Forall (Permutation_sym (insert_by_Permutation key x l))).
      constructor; assumption.
Qed.

Lemma ORDER_BY_sorted {A} (key : A -> option Z) (t : list A) :
  StronglySorted (fun a b => nulls_first_le (key a) (key b)) (ORDER_BY key t).
Proof.
  induction t as [|x t IH]; simpl; [constructor|].
  apply insert_by_sorted. exact IH.
Qed.

(** X6: the rows of the clustering statement come ordered by cluster_num,
    the rows without a cluster (NULL) first: of two rows, the earlier one
    has no cluster or has the smaller or equal cluster number. *)
Theorem clustering_rows_are_ordered `{E : GeoEngine} (source : list HTAN.row) :
  StronglySorted
    (fun a b => nulls_first_le (Clustering.cluster_num a) (Clustering.cluster_num b))
    (Clustering.query source).
Proof. unfold Clustering.query. apply ORDER_BY_sorted. Qed.

Lemma celltype_test (r : HTAN.row) :
  String.eqb (Classification.celltype_of r) "Tumor"
  = SQL.holds
      (SQL.AND (SQL.gt (HTAN.SOX10_cellRingMask r) (SQL.lit 3704.5%float))
               (SQL.OR (SQL.gt (HTAN.S100B_cellRingMask r) (SQL.lit 7589.48%float))
                       (SQL.gt (HTAN.CD63_cellRingMask r) (SQL.lit 570.68%float)))).
Proof.
  unfold Classification.celltype_of.
  match goal with |- context [SQL.IF ?c _ _] => destruct c as [[]|] end; reflexivity.
Qed.

Lemma cluster_condition_split (r : HTAN.row) :
  SQL.holds (ClusterCells.condition r)
  = SQL.holds (of_biospecimen r)
    && SQL.holds (in_region (HTAN.X_centroid r) (HTAN.Y_centroid r))
    && String.eqb (Classification.celltype_of r) "Tumor".
Proof.
  rewrite celltype_test. unfold ClusterCells.condition, in_region.
  rewrite !holds_AND, !andb_assoc. reflexivity.
Qed.

(** X7: the clustering statement clusters exactly the cells the
    classification statement labels 'Tumor': same CellIDs and coordinates,
    row for row. *)
Theorem clustering_takes_the_cells_labelled_tumor `{E : GeoEngine}
    (source : list HTAN.row) :
  map (fun c => (ClusterCells.CellID c, ClusterCells.X_centroid c,
                 ClusterCells.Y_centroid c))
      (ClusterCells.cells source)
  = map (fun c => (Classification.CellID c, Classification.X_centroid c,
                   Classification.Y_centroid c))
        (List.filter (fun c => String.eqb (Classification.celltype c) "Tumor")
                     (Classification.query source)).
Proof.
  unfold ClusterCells.cells, Classification.query, Classification.cells.
  rewrite WHERE_map. unfold SQL.WHERE.
  rewrite filter_of_map, !filter_twice, !map_map. simpl.
  f_equal. apply filter_ext. intros r.
  rewrite cluster_condition_split, andb_assoc. reflexivity.
Qed.

(** * Further facts about the cells *)

(** ** Cell 30 after cell 28 *)

Lemma SFcompare_refl (f : SpecFloat.spec_float) :
  f <> SpecFloat.S754_nan -> SpecFloat.SFcompare f f = Some Eq.
Proof.
  destruct f as [s|s| |s m e]; intros Hf; try destruct s; simpl;
    rewrite ?Z.compare_refl, ?Pos.compare_cont_refl; try reflexivity.
  contradiction.
Qed.

Lemma ltb_not_nan_l (x y : float) :
  PrimFloat.ltb x y = true -> PrimFloat.is_nan x = false.
Proof.
  unfold PrimFloat.is_nan. rewrite FloatAxioms.ltb_spec, FloatAxioms.eqb_spec.
  unfold SpecFloat.SFltb, SpecFloat.SFeqb. intros H.
  rewrite SFcompare_refl; [reflexivity|].
  intros Hnan. rewrite Hnan in H. simpl in H. discriminate H.
Qed.

Lemma strictly_inside_notna (x y : option float) :
  strictly_inside x y -> notna_float x = true /\ notna_float y = true.
Proof.
  intros [a [b [-> [-> [_ [Ha [_ Hb]]]]]]]. simpl.
  rewrite (ltb_not_nan_l _ _ Ha), (ltb_not_nan_l _ _ Hb). split; reflexivity.
Qed.

Lemma clustering_row_is_inside `{E : GeoEngine} (source : list HTAN.row)
    (row : Clustering.row) :
  In row (Clustering.query source) ->
  strictly_inside (Clustering.X_centroid row) (Clustering.Y_centroid row).
Proof.
  intros Hrow.
  apply (Permutation_in _ (ORDER_BY_Permutation _ _)) in Hrow.
  unfold Clustering.windowed in Hrow.
  apply list_elem_of_In, elem_of_lookup_imap in Hrow as [i [c [-> Hc]]].
  apply list_elem_of_lookup_2, list_elem_of_In in Hc.
  unfold ClusterCells.cells in Hc. apply in_map_iff in Hc as [r [<- Hr]].
  apply WHERE_In in Hr as [_ Hr]. apply cluster_condition_spec in Hr as [_ [Hin _]].
  exact Hin.
Qed.

Lemma cell30_on_clusters `{E : GeoEngine} (k : kernel) (rows : list Clustering.row) :
  df (ns k) = Some (Clusters rows) ->
  fst (run Cell30 k) = Ok tt /\
  ext (snd (run Cell30 k)) = ext k /\
  df (ns (snd (run Cell30 k))) = df (ns k) /\
  df1 (ns (snd (run Cell30 k)))
  = Some (Plotted (map cluster_num_as_str
            (List.filter
               (fun r => notna (Clustering.CellID r)
                         && notna_float (Clustering.X_centroid r)
                         && notna_float (Clustering.Y_centroid r)
                         && notna (Clustering.cluster_num r)) rows))).
Proof.
  intros Hdf. unfold run, cell30, bind, load, store. simpl. rewrite Hdf. simpl.
  repeat split. exact Hdf.
Qed.

(** X8: when cell 28 has completed, cell 30 completes without a call to the
    service, and [df1] holds, cast to strings, the clusters of exactly the
    rows of [df] that have a CellID and a cluster: no row is dropped for its
    coordinates. *)
Theorem cell30_drops_the_unclustered `{E : GeoEngine} (k : kernel) :
  fst (run Cell28 k) = Ok tt ->
  exists source,
    tables (remote (ext k)) !! source_table = Some (Cells source) /\
    fst (run Cell30 (snd (run Cell28 k))) = Ok tt /\
    ext (snd (run Cell30 (snd (run Cell28 k)))) = ext (snd (run Cell28 k)) /\
    df1 (ns (snd (run Cell30 (snd (run Cell28 k)))))
    = Some (Plotted (map cluster_num_as_str
              (List.filter
                 (fun r => notna (Clustering.CellID r) && notna (Clustering.cluster_num r))
                 (Clustering.query source)))).
Proof.
  intros Hok. destruct (cell28_reads_fresh_clusters k Hok) as [source [Ht Hdf]].
  exists source. split; [exact Ht|].
  destruct (cell30_on_clusters _ _ Hdf) as [H1 [H2 [_ H4]]].
  split; [exact H1|]. split; [exact H2|]. rewrite H4. do 3 f_equal.
  apply filter_ext_in. intros r Hr.
  destruct (strictly_inside_notna _ _ (clustering_row_is_inside source r Hr)) as [-> ->].
  rewrite !andb_true_r. reflexivity.
Qed.

Lemma cell30_drops_the_unclustered_witness :
  exists source,
    tables (remote (ext (after [Cell8] (fresh_kernel (E := Grid.engine) Grid.sample))))
      !! source_table = Some (Cells source) /\
    fst (run Cell30 (after [Cell8; Cell28] (fresh_kernel Grid.sample))) = Ok tt.
Proof.
  destruct (cell30_drops_the_unclustered
              (after [Cell8] (fresh_kernel (E := Grid.engine) Grid.sample)) eq_refl)
    as [source [Ht [Hok _]]].
  exists source. split; [exact Ht | exact Hok].
Defined.

(** X9: run on a [df] bound by cell 12 or cell 21, cell 30 raises KeyError
    'cluster_num' without a call to the service, after it has rebound [df1]
    to the rows of [df] without a missing value. *)
Theorem cell30_needs_the_clusters `{E : GeoEngine} (k : kernel) (d : rowset) :
  df (ns k) = Some d ->
  (exists rows, d = Labelled rows) \/ (exists rows, d = Pairs rows) ->
  fst (run Cell30 k) = Raise (KeyError "cluster_num") /\
  ext (snd (run Cell30 k)) = ext k /\
  df1 (ns (snd (run Cell30 k))) = Some (dropna d).
Proof.
  intros Hdf [[rows ->]|[rows ->]];
    unfold run, cell30, bind, load, store; simpl; rewrite Hdf; simpl;
    repeat split.
Qed.

Lemma cell30_needs_the_clusters_witness :
  fst (run Cell30 (after [Cell8; Cell12] (fresh_kernel (E := Grid.engine) Grid.sample)))
  = Raise (KeyError "cluster_num").
Proof.
  refine (proj1 (cell30_needs_the_clusters
                   (after [Cell8; Cell12] (fresh_kernel (E := Grid.engine) Grid.sample))
                   (Labelled (Classification.query Grid.sample)) eq_refl _)).
  left. eexists. reflexivity.
Defined.

(** ** The reading cells: results, bounds, failures *)

Lemma cell12_reads_labelled `{E : GeoEngine} (k : kernel) :
  fst (run Cell12 k) = Ok tt ->
  exists source,
    tables (remote (ext k)) !! source_table = Some (Cells source) /\
    df (ns (snd (run Cell12 k))) = Some (Labelled (Classification.query source)).
Proof.
  unfold run, cell12, bind, store, load, read_gbq, call, read_gbq_served,
    evaluate, scan_cells. simpl.
  destruct (project_id (ns k)); simpl; [|discriminate].
  destruct (faults (ext k) (length (log (ext k)))); simpl; [discriminate|].
  destruct (tables (remote (ext k)) !! source_table) as [[]|]; simpl;
    try discriminate.
  intros _. eexists. split; reflexivity.
Qed.

Lemma keeps_tables_cell12 `{E : GeoEngine} : keeps_tables cell12.
Proof. unfold cell12. keeps_tables. Qed.

(** X10: when cell 12 completes, [df] holds the classification statement's
    rows over the source table as it is then; and when it is run again and
    completes again, [df] holds the same rows. *)
Theorem cell12_reads_the_labels `{E : GeoEngine} (k : kernel) :
  fst (run Cell12 k) = Ok tt ->
  exists source,
    tables (remote (ext k)) !! source_table = Some (Cells source) /\
    df (ns (snd (run Cell12 k))) = Some (Labelled (Classification.query source)) /\
    (fst (run Cell12 (snd (run Cell12 k))) = Ok tt ->
     df (ns (snd (run Cell12 (snd (run Cell12 k)))))
     = df (ns (snd (run Cell12 k)))).
Proof.
  intros Hok. destruct (cell12_reads_labelled k Hok) as [source [Ht Hdf]].
  exists source. split; [exact Ht|]. split; [exact Hdf|].
  intros Hok2. destruct (cell12_reads_labelled _ Hok2) as [source2 [Ht2 Hdf2]].
  change (run Cell12 k) with (cell12 k) in Ht2.
  rewrite keeps_tables_cell12, Ht in Ht2. injection Ht2 as <-.
  rewrite Hdf2, Hdf. reflexivity.
Qed.

Lemma cell12_reads_the_labels_witness :
  exists source,
    tables (remote (ext (after [Cell8] (fresh_kernel (E := Grid.engine) Grid.sample))))
      !! source_table = Some (Cells source) /\
    df (ns (after [Cell8; Cell12] (fresh_kernel Grid.sample)))
    = Some (Labelled (Classification.query source)).
Proof.
  destruct (cell12_reads_the_labels
              (after [Cell8] (fresh_kernel (E := Grid.engine) Grid.sample)) eq_refl)
    as [source [Ht [Hdf _]]].
  exists source. split; [exact Ht | exact Hdf].
Defined.

Lemma LIMIT_length `{E : GeoEngine} {A} (n : nat) (t : list A) :
  length (LIMIT n t) <= n.
Proof. apply firstn_le_length. Qed.

Lemma LIMIT_In `{E : GeoEngine} {A} (n : nat) (t : list A) (a : A) :
  In a (LIMIT n t) -> In a t.
Proof.
  unfold LIMIT. intros H.
  assert (Hin : In a (omap (fun i => t !! i) (scan_order (length t)))).
  { rewrite <- (firstn_skipn n). apply in_or_app. left. exact H. }
  apply list_elem_of_In, list_elem_of_omap in Hin as [i [_ Hi]].
  apply list_elem_of_In. eapply list_elem_of_lookup_2. exact Hi.
Qed.

Lemma omap_lookup_seq {A} (t pre : list A) :
  omap (fun i => (pre ++ t)%list !! i) (seq (length pre) (length t)) = t.
Proof.
  revert pre. induction t as [|a t IH]; intros pre; [reflexivity|].
  simpl. rewrite list_lookup_middle by reflexivity. f_equal.
  specialize (IH (pre ++ [a])%list).
  rewrite length_app, Nat.add_1_r, <- app_assoc in IH. exact IH.
Qed.

(** When the engine scans every row once, [LIMIT n] keeps [n] rows of the
    table, or all of them when there are fewer, each as often as it is
    there. *)
Lemma LIMIT_scans_once `{E : GeoEngine} {A} (n : nat) (t : list A) :
  Permutation (scan_order (length t)) (seq 0 (length t)) ->
  length (LIMIT n t) = Nat.min n (length t) /\
  exists rest, Permutation (LIMIT n t ++ rest) t.
Proof.
  intros Hscan.
  assert (Hall : Permutation (omap (fun i => t !! i) (scan_order (length t))) t).
  { pose proof (omap_lookup_seq t []) as Hseq. simpl in Hseq.
    etransitivity; [apply (omap_Permutation (fun i => t !! i)); exact Hscan|].
    rewrite Hseq. reflexivity. }
  unfold LIMIT. split.
  - rewrite length_firstn, (Permutation_length Hall). reflexivity.
  - exists (skipn n (omap (fun i => t !! i) (scan_order (length t)))).
    rewrite firstn_skipn. exact Hall.
Qed.

Lemma cell21_reads_limited `{E : GeoEngine} (k : kernel) :
  fst (run Cell21 k) = Ok tt ->
  exists project pairs,
    client (ns k) = Some project /\
    tables (remote (ext k)) !! pairs_table project = Some (Pairs pairs) /\
    df (ns (snd (run Cell21 k))) = Some (Pairs (LIMIT 10 pairs)).
Proof.
  unfold run, cell21, bind, store, load, read_gbq, call, read_gbq_served,
    evaluate, scan_pairs. simpl.
  destruct (client (ns k)) as [project|]; simpl; [|discriminate].
  destruct (project_id (ns k)); simpl; [|discriminate].
  destruct (faults (ext k) (length (log (ext k)))); simpl; [discriminate|].
  destruct (tables (remote (ext k)) !! pairs_table project) as [[]|] eqn:Ht; simpl;
    try discriminate.
  intros _. eexists _, _. split; [reflexivity|]. split; [exact Ht | reflexivity].
Qed.

(** X11: when cell 21 completes, [df] holds at most ten rows, every one of
    them a row of the stored pairs table of the client's project; which rows
    is the engine's choice, the statement giving no order.  When the engine
    scans every row of the table once, they are ten rows of the table, or all
    of them when it has fewer, each as often as the table has it. *)
Theorem cell21_shows_at_most_ten_rows `{E : GeoEngine} (k : kernel) :
  fst (run Cell21 k) = Ok tt ->
  exists project pairs rows,
    client (ns k) = Some project /\
    tables (remote (ext k)) !! pairs_table project = Some (Pairs pairs) /\
    df (ns (snd (run Cell21 k))) = Some (Pairs rows) /\
    length rows <= 10 /\
    (forall r, In r rows -> In r pairs) /\
    (Permutation (scan_order (length pairs)) (seq 0 (length pairs)) ->
     length rows = Nat.min 10 (length pairs) /\
     exists rest, Permutation (rows ++ rest) pairs).
Proof.
  intros Hok. destruct (cell21_reads_limited k Hok) as [project [pairs [Hc [Ht Hdf]]]].
  exists project, pairs, (LIMIT 10 pairs).
  split; [exact Hc|]. split; [exact Ht|]. split; [exact Hdf|].
  split; [apply LIMIT_length|].
  split; [intros r; apply LIMIT_In | apply LIMIT_scans_once].
Qed.

Lemma cell21_shows_at_most_ten_rows_witness :
  exists project rows,
    client (ns (after [Cell8] (stocked_kernel (E := Grid.engine) Grid.sample)))
    = Some project /\
    df (ns (after [Cell8; Cell21] (stocked_kernel Grid.sample)))
    = Some (Pairs rows) /\
    length rows <= 10.
Proof.
  destruct (cell21_shows_at_most_ten_rows
              (after [Cell8] (stocked_kernel (E := Grid.engine) Grid.sample)) eq_refl)
    as [project [pairs [rows [Hc [_ [Hdf [Hlen _]]]]]]].
  exists project, rows. split; [exact Hc|]. split; [exact Hdf | exact Hlen].
Defined.

(** X12: when the project holds no pairs table and the service answers,
    cells 21 and 23 raise the service's notFound; [df] and [df1] keep what
    they held, and [query] is rebound to the statement that failed. *)
Theorem reading_a_missing_pairs_table `{E : GeoEngine} (k : kernel) (project p : string) :
  client (ns k) = Some project ->
  project_id (ns k) = Some p ->
  faults (ext k) (length (log (ext k))) = None ->
  tables (remote (ext k)) !! pairs_table project = None ->
  (fst (run Cell21 k) = Raise (GoogleAPIError "notFound") /\
   df (ns (snd (run Cell21 k))) = df (ns k) /\
   df1 (ns (snd (run Cell21 k))) = df1 (ns k) /\
   query (ns (snd (run Cell21 k))) = Some (SelectPairsLimit10 project)) /\
  (fst (run Cell23 k) = Raise (GoogleAPIError "notFound") /\
   df (ns (snd (run Cell23 k))) = df (ns k) /\
   df1 (ns (snd (run Cell23 k))) = df1 (ns k) /\
   query (ns (snd (run Cell23 k))) = Some (SelectNeighbourCounts project)).
Proof.
  intros Hc Hp Hf Ht.
  split; unfold run, cell21, cell23, bind, store, load, read_gbq, call,
    read_gbq_served, evaluate, scan_pairs; simpl;
    rewrite Hc; simpl; rewrite Hp; simpl; rewrite Hf; simpl; rewrite Ht; simpl;
    repeat split.
Qed.

Lemma reading_a_missing_pairs_table_witness :
  fst (run Cell23 (after [Cell8] (fresh_kernel (E := Grid.engine) Grid.sample)))
  = Raise (GoogleAPIError "notFound").
Proof.
  exact (proj1 (proj2 (reading_a_missing_pairs_table
           (after [Cell8] (fresh_kernel (E := Grid.engine) Grid.sample))
           "isb-cgc-outreach" "isb-cgc-outreach" eq_refl eq_refl eq_refl eq_refl))).
Defined.

(** ** What the cells leave alone *)

Lemma keeps_names_ret `{E : GeoEngine} {A X} (view : namespace -> X) (a : A) :
  keeps_names view (ret a).
Proof. intros k. reflexivity. Qed.

Lemma keeps_names_load `{E : GeoEngine} {A X} (view : namespace -> X) name
    (get : namespace -> option A) :
  keeps_names view (load name get).
Proof. intros k. unfold load. destruct (get (ns k)); reflexivity. Qed.

Lemma keeps_names_setenv `{E : GeoEngine} {X} (view : namespace -> X) name value :
  keeps_names view (setenv name value).
Proof. intros k. reflexivity. Qed.

Lemma keeps_names_getenv `{E : GeoEngine} {X} (view : namespace -> X) name :
  keeps_names view (getenv name).
Proof. intros k. reflexivity. Qed.

Lemma keeps_names_call `{E : GeoEngine} {A X} (view : namespace -> X) rq
    (serve : cloud -> answer (A * cloud)) :
  keeps_names view (call rq serve).
Proof.
  intros k. unfold call.
  destruct (faults (ext k) (length (log (ext k)))); [reflexivity|].
  destruct (serve (remote (ext k))) as [[a c]|why]; reflexivity.
Qed.

Lemma keeps_names_create_dataset `{E : GeoEngine} {X} (view : namespace -> X) d ok :
  keeps_names view (create_dataset d ok).
Proof.
  intros k. unfold create_dataset.
  destruct (faults (ext k) (length (log (ext k)))); [reflexivity|].
  destruct (create_dataset_served d (remote (ext k))) as [[a c]|why];
    [|destruct ok]; reflexivity.
Qed.

Lemma keeps_names_store `{E : GeoEngine} {X} (view : namespace -> X) set :
  (forall n, view (set n) = view n) -> keeps_names view (store set).
Proof. intros Hset k. apply Hset. Qed.

Lemma keeps_names_bind `{E : GeoEngine} {A B X} (view : namespace -> X)
    (m : M A) (f : A -> M B) :
  keeps_names view m -> (forall a, keeps_names view (f a)) ->
  keeps_names view (bind m f).
Proof.
  intros Hm Hf k. unfold bind. specialize (Hm k).
  destruct (m k) as [[a|e] k']; simpl in *; [|exact Hm].
  rewrite (Hf a k'). exact Hm.
Qed.

Ltac keeps_names :=
  repeat (apply keeps_names_bind; [|intros ?]);
  first [ apply keeps_names_ret | apply keeps_names_load | apply keeps_names_setenv
        | apply keeps_names_getenv | apply keeps_names_call
        | apply keeps_names_create_dataset
        | apply keeps_names_store; intros ?; reflexivity ].

Lemma keeps_names_on_failure_of `{E : GeoEngine} {A X} (view : namespace -> X) (m : M A) :
  keeps_names view m -> keeps_names_on_failure view m.
Proof. intros Hm k. right. apply Hm. Qed.

Lemma keeps_names_on_failure_store `{E : GeoEngine} {X} (view : namespace -> X) set :
  keeps_names_on_failure view (store set).
Proof. intros k. left. exists tt. reflexivity. Qed.

Lemma keeps_names_on_failure_bind `{E : GeoEngine} {A B X} (view : namespace -> X)
    (m : M A) (f : A -> M B) :
  keeps_names view m -> (forall a, keeps_names_on_failure view (f a)) ->
  keeps_names_on_failure view (bind m f).
Proof.
  intros Hm Hf k. unfold bind. specialize (Hm k).
  destruct (m k) as [[a|e] k']; simpl in *; [|right; exact Hm].
  destruct (Hf a k') as [Hok|Hkeep]; [left; exact Hok|].
  right. rewrite Hkeep. exact Hm.
Qed.

Ltac keeps_names_on_failure :=
  repeat (apply keeps_names_on_failure_bind; [keeps_names | intros ?]);
  first [ apply keeps_names_on_failure_store
        | apply keeps_names_on_failure_of; keeps_names ].

Lemma frames_kept_on_failure `{E : GeoEngine} (c : cell) :
  c <> Cell30 -> keeps_names_on_failure frames (run c).
Proof.
  destruct c; intros Hc; simpl.
  - unfold cell7, authenticate_user. keeps_names_on_failure.
  - unfold cell8, Client. keeps_names_on_failure.
  - unfold cell12, read_gbq. keeps_names_on_failure.
  - unfold cell17. keeps_names_on_failure.
  - unfold cell19, client_query, result. keeps_names_on_failure.
  - unfold cell21, read_gbq. keeps_names_on_failure.
  - unfold cell23, read_gbq. keeps_names_on_failure.
  - unfold cell28, read_gbq. keeps_names_on_failure.
  - contradiction.
Qed.

(** X13: a cell other than cell 30 that raises has rebound neither [df] nor
    [df1]: a frame is assigned only once the rows have arrived. *)
Theorem a_failed_cell_assigns_no_frame `{E : GeoEngine} (c : cell) (k : kernel) (e : exn) :
  c <> Cell30 ->
  fst (run c k) = Raise e ->
  df (ns (snd (run c k))) = df (ns k) /\ df1 (ns (snd (run c k))) = df1 (ns k).
Proof.
  intros Hc He. destruct (frames_kept_on_failure c Hc k) as [[a Hok]|Hkeep].
  - rewrite He in Hok. discriminate Hok.
  - unfold frames in Hkeep. injection Hkeep as Hdf Hdf1. split; assumption.
Qed.

Lemma a_failed_cell_assigns_no_frame_witness :
  df (ns (after [Cell8; Cell12; Cell23] (fresh_kernel (E := Grid.engine) Grid.sample)))
  = df (ns (after [Cell8; Cell12] (fresh_kernel Grid.sample))).
Proof.
  refine (proj1 (a_failed_cell_assigns_no_frame Cell23
                   (after [Cell8; Cell12] (fresh_kernel (E := Grid.engine) Grid.sample))
                   (GoogleAPIError "notFound") _ eq_refl)).
  discriminate.
Defined.

(** ** How often a cell calls the service *)

Lemma at_most_weaken `{E : GeoEngine} {A} (n n' : nat) (m : M A) :
  at_most_calls n m -> n <= n' -> at_most_calls n' m.
Proof. intros Hm Hn k. specialize (Hm k). lia. Qed.

Lemma at_most_ret `{E : GeoEngine} {A} (a : A) : at_most_calls 0 (ret a).
Proof. intros k. simpl. lia. Qed.

Lemma at_most_load `{E : GeoEngine} {A} name (get : namespace -> option A) :
  at_most_calls 0 (load name get).
Proof. intros k. unfold load. destruct (get (ns k)); simpl; lia. Qed.

Lemma at_most_store `{E : GeoEngine} set : at_most_calls 0 (store set).
Proof. intros k. simpl. lia. Qed.

Lemma at_most_setenv `{E : GeoEngine} name value : at_most_calls 0 (setenv name value).
Proof. intros k. simpl. lia. Qed.

Lemma at_most_getenv `{E : GeoEngine} name : at_most_calls 0 (getenv name).
Proof. intros k. simpl. lia. Qed.

Lemma at_most_raise `{E : GeoEngine} {A} (e : exn) :
  at_most_calls 0 (fun k => (@Raise A e, k)).
Proof. intros k. simpl. lia. Qed.

Lemma at_most_call `{E : GeoEngine} {A} rq (serve : cloud -> answer (A * cloud)) :
  at_most_calls 1 (call rq serve).
Proof.
  intros k. unfold call.
  destruct (faults (ext k) (length (log (ext k)))); simpl; [lia|].
  destruct (serve (remote (ext k))) as [[a c]|why]; simpl; lia.
Qed.

Lemma at_most_create_dataset `{E : GeoEngine} d ok :
  at_most_calls 1 (create_dataset d ok).
Proof.
  intros k. unfold create_dataset.
  destruct (faults (ext k) (length (log (ext k)))); simpl; [lia|].
  destruct (create_dataset_served d (remote (ext k))) as [[a c]|why];
    [|destruct ok]; simpl; lia.
Qed.

Lemma at_most_bind `{E : GeoEngine} {A B} (n1 n2 : nat) (m : M A) (f : A -> M B) :
  at_most_calls n1 m -> (forall a, at_most_calls n2 (f a)) ->
  at_most_calls (n1 + n2) (bind m f).
Proof.
  intros Hm Hf k. unfold bind. specialize (Hm k).
  destruct (m k) as [[a|e] k']; simpl in *; [|lia].
  specialize (Hf a k'). lia.
Qed.

Ltac at_most_calls :=
  repeat (eapply at_most_bind; [|intros ?]);
  first [ apply at_most_ret | apply at_most_load | apply at_most_store
        | apply at_most_setenv | apply at_most_getenv | apply at_most_call
        | apply at_most_create_dataset | apply at_most_raise ].

(** X14: a cell calls the service at most as often as its text has calls:
    cells 17 and 30 never, cell 19 at most three times, every other cell at
    most once. *)
Theorem cells_make_few_calls `{E : GeoEngine} (c : cell) (k : kernel) :
  length (log (ext (snd (run c k)))) <= length (log (ext k)) + calls_of c.
Proof.
  revert k. change (at_most_calls (calls_of c) (run c)).
  destruct c; simpl; (eapply at_most_weaken; [|shelve]).
  - unfold cell7, authenticate_user. at_most_calls.
  - unfold cell8, Client. at_most_calls.
  - unfold cell12, read_gbq. at_most_calls.
  - unfold cell17. at_most_calls.
  - unfold cell19, client_query, result. at_most_calls.
  - unfold cell21, read_gbq. at_most_calls.
  - unfold cell23, read_gbq. at_most_calls.
  - unfold cell28, read_gbq. at_most_calls.
  - unfold cell30. repeat (eapply at_most_bind; [|intros ?]);
      try match goal with |- at_most_calls _ (match ?d with _ => _ end) => destruct d end;
      at_most_calls.
  Unshelve. all: simpl; lia.
Qed.

(** ** The datasets of the project *)

Lemma keeps_project_ret `{E : GeoEngine} {A X} (view : cloud -> X) (a : A) :
  keeps_project view (ret a).
Proof. intros k. reflexivity. Qed.

Lemma keeps_project_load `{E : GeoEngine} {A X} (view : cloud -> X) name
    (get : namespace -> option A) :
  keeps_project view (load name get).
Proof. intros k. unfold load. destruct (get (ns k)); reflexivity. Qed.

Lemma keeps_project_store `{E : GeoEngine} {X} (view : cloud -> X) set :
  keeps_project view (store set).
Proof. intros k. reflexivity. Qed.

Lemma keeps_project_setenv `{E : GeoEngine} {X} (view : cloud -> X) name value :
  keeps_project view (setenv name value).
Proof. intros k. reflexivity. Qed.

Lemma keeps_project_getenv `{E : GeoEngine} {X} (view : cloud -> X) name :
  keeps_project view (getenv name).
Proof. intros k. reflexivity. Qed.

Lemma keeps_project_raise `{E : GeoEngine} {A X} (view : cloud -> X) (e : exn) :
  keeps_project view (fun k => (@Raise A e, k)).
Proof. intros k. reflexivity. Qed.

Lemma keeps_project_call `{E : GeoEngine} {A X} (view : cloud -> X) rq
    (serve : cloud -> answer (A * cloud)) :
  (forall c a c', serve c = Done (a, c') -> view c' = view c) ->
  keeps_project view (call rq serve).
Proof.
  intros Hserve k. unfold call.
  destruct (faults (ext k) (length (log (ext k)))); simpl; [reflexivity|].
  destruct (serve (remote (ext k))) as [[a c']|why] eqn:Hs; simpl; [|reflexivity].
  apply (Hserve _ _ _ Hs).
Qed.

Lemma keeps_project_bind `{E : GeoEngine} {A B X} (view : cloud -> X)
    (m : M A) (f : A -> M B) :
  keeps_project view m -> (forall a, keeps_project view (f a)) ->
  keeps_project view (bind m f).
Proof.
  intros Hm Hf k. unfold bind. specialize (Hm k).
  destruct (m k) as [[a|e] k']; simpl in *; [|exact Hm].
  rewrite (Hf a k'). exact Hm.
Qed.

Lemma run_job_datasets `{E : GeoEngine} q cfg c :
  datasets (run_job q cfg c) = datasets c.
Proof.
  unfold run_job. destruct (evaluate q (tables c)); [|reflexivity].
  destruct (write_result cfg a (tables c)); reflexivity.
Qed.

Lemma keeps_datasets_authenticate `{E : GeoEngine} : keeps_project datasets authenticate_user.
Proof. apply keeps_project_call. intros c a c' [= _ <-]. reflexivity. Qed.

Lemma keeps_datasets_Client `{E : GeoEngine} p : keeps_project datasets (Client p).
Proof.
  unfold Client. apply keeps_project_bind; [apply keeps_project_getenv|].
  intros key. apply keeps_project_call. intros c a c' [= _ <-]. reflexivity.
Qed.

Lemma keeps_datasets_client_query `{E : GeoEngine} q cfg :
  keeps_project datasets (client_query q cfg).
Proof.
  apply keeps_project_call. unfold insert_job_served.
  intros c a c' [= _ <-]. apply run_job_datasets.
Qed.

Lemma keeps_datasets_result `{E : GeoEngine} job : keeps_project datasets (result job).
Proof.
  apply keeps_project_call. unfold query_results_served. intros c a c'.
  destruct (jobs c !! job) as [[rows|why]|]; intros H; try discriminate H.
  injection H as _ <-. reflexivity.
Qed.

Lemma keeps_datasets_read_gbq `{E : GeoEngine} q p : keeps_project datasets (read_gbq q p).
Proof.
  apply keeps_project_call. unfold read_gbq_served. intros c a c'.
  destruct (evaluate q (tables c)); intros H; try discriminate H.
  injection H as _ <-. apply run_job_datasets.
Qed.

Ltac keeps_datasets :=
  first [ apply keeps_project_ret | apply keeps_project_load | apply keeps_project_store
        | apply keeps_project_setenv | apply keeps_project_getenv
        | apply keeps_project_raise
        | apply keeps_datasets_authenticate | apply keeps_datasets_Client
        | apply keeps_datasets_client_query | apply keeps_datasets_result
        | apply keeps_datasets_read_gbq
        | apply keeps_project_bind; [keeps_datasets | intros ?; keeps_datasets] ].

Lemma other_cells_keep_the_datasets `{E : GeoEngine} (c : cell) :
  c <> Cell19 -> keeps_project datasets (run c).
Proof.
  destruct c; intros Hc; simpl.
  - unfold cell7. keeps_datasets.
  - unfold cell8. keeps_datasets.
  - unfold cell12. keeps_datasets.
  - unfold cell17. keeps_datasets.
  - contradiction.
  - unfold cell21. keeps_datasets.
  - unfold cell23. keeps_datasets.
  - unfold cell28. keeps_datasets.
  - unfold cell30.
    apply keeps_project_bind; [keeps_datasets | intros ?].
    apply keeps_project_bind; [keeps_datasets | intros ?].
    apply keeps_project_bind; [keeps_datasets | intros d1].
    destruct d1; keeps_datasets.
Qed.

(** What follows [create_dataset] in cell 19, given the dataset it returned. *)
Lemma cell19_unfolds `{E : GeoEngine} (k : kernel) (project : string) :
  client (ns k) = Some project ->
  let d := {| dataset_ref := project ++ ".temp15432"; location := Some "US" |} in
  exists k1,
    ext k1 = ext k /\ query (ns k1) = query (ns k) /\
    run Cell19 k
    = bind (create_dataset d true)
           (fun d' =>
              bind (store (set_dataset d'))
                   (fun _ =>
                      bind (load "client" client)
                           (fun _ =>
                              bind (load "query" query)
                                   (fun q =>
                                      bind (client_query q None)
                                           (fun job =>
                                              bind (store (set_query_job job))
                                                   (fun _ =>
                                                      bind (load "query_job" query_job)
                                                           (fun job =>
                                                              bind (result job)
                                                                   (fun _ => ret tt))))))))
           k1.
Proof.
  intros Hc d.
  exists {| environ := environ k;
            ns := set_dataset d (set_dataset_id d
                    (set_dataset {| dataset_ref := project ++ ".temp15432"; location := None |}
                       (set_dataset_id
                          {| dataset_ref := project ++ ".temp15432"; location := None |}
                          (ns k))));
            ext := ext k |}.
  split; [reflexivity|]. split; [reflexivity|].
  unfold run, cell19, bind, load, store. simpl.
  repeat (rewrite Hc; simpl). reflexivity.
Qed.

Lemma create_dataset_served_datasets `{E : GeoEngine} d c a c' :
  create_dataset_served d c = Done (a, c') ->
  dataset_ref d ∈ datasets c' /\ datasets c' = {[dataset_ref d]} ∪ datasets c.
Proof.
  unfold create_dataset_served.
  destruct (decide (dataset_ref d ∈ datasets c)) as [Hin|Hout]; intros H;
    [discriminate H | injection H as _ <-].
  simpl. split; [set_solver | reflexivity].
Qed.

Lemma create_dataset_served_refused `{E : GeoEngine} d c why :
  create_dataset_served d c = Failed why -> dataset_ref d ∈ datasets c.
Proof.
  unfold create_dataset_served.
  destruct (decide (dataset_ref d ∈ datasets c)) as [Hin|Hout]; intros H;
    [exact Hin | discriminate H].
Qed.

Lemma cell19_tail_keeps_datasets `{E : GeoEngine} (d' : Dataset) :
  keeps_project datasets
    (bind (store (set_dataset d'))
       (fun _ =>
          bind (load "client" client)
            (fun _ =>
               bind (load "query" query)
                 (fun q =>
                    bind (client_query q None)
                      (fun job =>
                         bind (store (set_query_job job))
                           (fun _ =>
                              bind (load "query_job" query_job)
                                (fun job => bind (result job) (fun _ => ret tt)))))))).
Proof. keeps_datasets. Qed.

(** The three ways [create_dataset] called with exists_ok = True goes on:
    it raises, it has created the dataset, or the dataset was there. *)
Lemma bind_create_dataset_cases `{E : GeoEngine} {B} (d : Dataset) (f : Dataset -> M B)
    (k : kernel) :
  (exists why k',
     bind (create_dataset d true) f k = (Raise (GoogleAPIError why), k') /\
     remote (ext k') = remote (ext k)) \/
  (exists a c k',
     create_dataset_served d (remote (ext k)) = Done (a, c) /\
     bind (create_dataset d true) f k = f a k' /\
     remote (ext k') = c) \/
  (exists why k',
     create_dataset_served d (remote (ext k)) = Failed why /\
     bind (create_dataset d true) f k = f d k' /\
     remote (ext k') = remote (ext k)).
Proof.
  unfold bind, create_dataset.
  destruct (faults (ext k) (length (log (ext k)))) as [why|]; simpl.
  { left. eexists _, _. repeat split. }
  destruct (create_dataset_served d (remote (ext k))) as [[a c]|why]; simpl.
  - right. left. eexists _, _, _. repeat split.
  - right. right. eexists _, _. repeat split.
Qed.

(** X15: no cell removes a dataset, and only cell 19 can add one: the dataset
    temp15432 of the client's project, which the project holds whenever
    cell 19 completes, whether it held it before or not. *)
Theorem only_cell19_creates_a_dataset `{E : GeoEngine} (c : cell) (k : kernel) :
  (c <> Cell19 ->
   datasets (remote (ext (snd (run c k)))) = datasets (remote (ext k))) /\
  (forall project,
     c = Cell19 -> client (ns k) = Some project ->
     (datasets (remote (ext (snd (run c k)))) = datasets (remote (ext k)) \/
      datasets (remote (ext (snd (run c k))))
      = {[project ++ ".temp15432"]} ∪ datasets (remote (ext k))) /\
     (fst (run c k) = Ok tt ->
      project ++ ".temp15432" ∈ datasets (remote (ext (snd (run c k)))))).
Proof.
  split.
  - intros Hc. apply (other_cells_keep_the_datasets c Hc).
  - intros project -> Hclient.
    destruct (cell19_unfolds k project Hclient) as [k1 [Hext [_ ->]]].
    match goal with
    | |- context [bind (create_dataset ?d true) ?f k1] =>
        destruct (bind_create_dataset_cases d f k1)
          as [[why [k' [-> Hr]]]
             | [[d' [c' [k' [Hcd [-> Hr]]]]] | [why [k' [Hcd [-> Hr]]]]]]
    end.
    + simpl. rewrite Hr, Hext. split; [left; reflexivity | discriminate].
    + apply create_dataset_served_datasets in Hcd as [Hin Hnew].
      simpl in Hin, Hnew. rewrite Hext in Hnew.
      rewrite (cell19_tail_keeps_datasets d' k'), Hr.
      split; [right; exact Hnew | intros _; exact Hin].
    + apply create_dataset_served_refused in Hcd. simpl in Hcd.
      rewrite (cell19_tail_keeps_datasets _ k'), Hr, Hext. rewrite Hext in Hcd.
      split; [left; reflexivity | intros _; exact Hcd].
Qed.

(** X16: cell 19 completes whenever the service serves its three calls and
    the statement in [query] can be evaluated, whether or not the dataset
    temp15432 exists already; the dataset exists afterwards and [query_job]
    is the job just added. *)
Theorem cell19_can_be_run_again `{E : GeoEngine} (k : kernel) (project : string)
    (q : statement) (rows : rowset) :
  client (ns k) = Some project ->
  query (ns k) = Some q ->
  evaluate q (tables (remote (ext k))) = Done rows ->
  faults (ext k) (length (log (ext k))) = None ->
  faults (ext k) (S (length (log (ext k)))) = None ->
  faults (ext k) (S (S (length (log (ext k))))) = None ->
  fst (run Cell19 k) = Ok tt /\
  project ++ ".temp15432" ∈ datasets (remote (ext (snd (run Cell19 k)))) /\
  query_job (ns (snd (run Cell19 k))) = Some (length (jobs (remote (ext k)))).
Proof.
  intros Hc Hq Hev Hf0 Hf1 Hf2.
  unfold run, cell19, bind, load, store, create_dataset, client_query, result, call, ret.
  simpl. repeat (rewrite Hc; simpl). rewrite Hf0. simpl.
  unfold create_dataset_served. simpl.
  destruct (decide (project ++ ".temp15432" ∈ datasets (remote (ext k)))) as [Hin|Hout];
    simpl;
    repeat (first [ rewrite Hc | rewrite Hq | rewrite Hf0 | rewrite Hf1 | rewrite Hf2
                  | rewrite Hev
                  | progress unfold insert_job_served, query_results_served, run_job ];
            simpl);
    rewrite list_lookup_middle by reflexivity; simpl.
  - repeat split. exact Hin.
  - repeat split. set_solver.
Qed.

Lemma cell19_can_be_run_again_witness :
  fst (run Cell19 (after [Cell8; Cell17; Cell19]
                         (fresh_kernel (E := Grid.engine) Grid.sample))) = Ok tt.
Proof.
  exact (proj1 (cell19_can_be_run_again
                  (after [Cell8; Cell17; Cell19]
                         (fresh_kernel (E := Grid.engine) Grid.sample))
                  "isb-cgc-outreach" SelectPairs (Pairs (Proximity.query Grid.sample))
                  eq_refl eq_refl eq_refl eq_refl eq_refl eq_refl)).
Defined.

(** ** Running the notebook from top to bottom *)

Lemma cell8_binds_the_session `{E : GeoEngine} (k : kernel) :
  fst (run Cell8 k) = Ok tt ->
  session (ns (snd (run Cell8 k)))
  = (Some "isb-cgc-outreach", Some "isb-cgc-outreach").
Proof.
  unfold run, cell8, Client, bind, setenv, store, load, getenv, call. simpl.
  destruct (faults (ext k) (length (log (ext k)))); simpl; [discriminate|].
  reflexivity.
Qed.

Lemma session_kept `{E : GeoEngine} (c : cell) :
  c <> Cell8 -> keeps_names session (run c).
Proof.
  destruct c; intros Hc; simpl.
  - unfold cell7, authenticate_user. keeps_names.
  - contradiction.
  - unfold cell12, read_gbq. keeps_names.
  - unfold cell17. keeps_names.
  - unfold cell19, client_query, result. keeps_names.
  - unfold cell21, read_gbq. keeps_names.
  - unfold cell23, read_gbq. keeps_names.
  - unfold cell28, read_gbq. keeps_names.
  - unfold cell30.
    apply keeps_names_bind; [keeps_names | intros ?].
    apply keeps_names_bind; [keeps_names | intros ?].
    apply keeps_names_bind; [keeps_names | intros d1].
    destruct d1; first [ keeps_names | intros k; reflexivity ].
Qed.

Lemma session_after `{E : GeoEngine} (cells : list cell) (k : kernel) :
  Forall (fun c => c <> Cell8) cells ->
  session (ns (after cells k)) = session (ns k).
Proof.
  revert k. induction cells as [|c cells IH]; intros k Hcells; [reflexivity|].
  apply Forall_cons_1 in Hcells as [Hc Hcells].
  unfold after in *. simpl. rewrite (IH _ Hcells). apply (session_kept c Hc).
Qed.

Lemma session_is_bound `{E : GeoEngine} (rest : list cell) (k : kernel) :
  Forall (fun c => c <> Cell8) rest ->
  fst (run Cell8 k) = Ok tt ->
  is_Some (project_id (ns (after (Cell8 :: rest) k))) /\
  is_Some (client (ns (after (Cell8 :: rest) k))).
Proof.
  intros Hrest Hok.
  assert (H : session (ns (after (Cell8 :: rest) k))
              = (Some "isb-cgc-outreach", Some "isb-cgc-outreach")).
  { change (after (Cell8 :: rest) k) with (after rest (snd (run Cell8 k))).
    rewrite (session_after _ _ Hrest). apply cell8_binds_the_session. exact Hok. }
  unfold session in H. injection H as H1 H2. split; eexists; [exact H1 | exact H2].
Qed.

Ltac not_cell8 := repeat constructor; discriminate.

Ltac next_cell Heq pre :=
  destruct pre as [|? pre]; simpl in Heq;
  [ first [ discriminate Heq | injection Heq as <- <- ]
  | first [ discriminate Heq | injection Heq as <- Heq; next_cell Heq pre ] ].

(** X17: run from top to bottom (cell 7 left out), every cell is ready when
    the cells above it have completed: it reads no name that is not bound,
    and cell 30 finds the clusters in [df]. *)
Theorem the_notebook_order_keeps_cells_ready `{E : GeoEngine} (k : kernel)
    (pre post : list cell) (c : cell) :
  notebook_order = (pre ++ c :: post)%list ->
  completes pre k ->
  ready c (ns (after pre k)).
Proof.
  intros Heq Hpre. unfold notebook_order in Heq. next_cell Heq pre;
    cbn [completes] in Hpre; cbn [ready].
  - exact I.
  - apply (session_is_bound [] k); [not_cell8 | apply Hpre].
  - exact I.
  - split.
    + apply (session_is_bound [Cell12; Cell17] k); [not_cell8 | apply Hpre].
    + eexists. reflexivity.
  - apply and_comm. apply (session_is_bound [Cell12; Cell17; Cell19] k);
      [not_cell8 | apply Hpre].
  - apply and_comm. apply (session_is_bound [Cell12; Cell17; Cell19; Cell21] k);
      [not_cell8 | apply Hpre].
  - apply (session_is_bound [Cell12; Cell17; Cell19; Cell21; Cell23] k);
      [not_cell8 | apply Hpre].
  - destruct Hpre as (_ & _ & _ & _ & _ & _ & H28 & _).
    destruct (cell28_reads_fresh_clusters _ H28) as [source [_ Hdf]].
    exists (Clustering.query source). exact Hdf.
Qed.

Lemma the_notebook_order_keeps_cells_ready_witness :
  ready Cell12 (ns (after [Cell8] (fresh_kernel (E := Grid.engine) Grid.sample))).
Proof.
  apply (the_notebook_order_keeps_cells_ready
           (fresh_kernel (E := Grid.engine) Grid.sample)
           [Cell8] [Cell17; Cell19; Cell21; Cell23; Cell28; Cell30] Cell12 eq_refl).
  split; [reflexivity | exact I].
Defined.

(** ** Cells 7 and 8 *)

(** X18: while [auth] is not imported (the import in cell 5 is commented
    out), cell 7 raises NameError 'auth': it makes no call and changes
    nothing. *)
Theorem cell7_needs_the_colab_import `{E : GeoEngine} (k : kernel) :
  auth (ns k) = false ->
  run Cell7 k = (Raise (NameError "auth"), k).
Proof.
  intros Hauth. unfold run, cell7, bind, load. rewrite Hauth. reflexivity.
Qed.

Lemma cell7_needs_the_colab_import_witness :
  fst (run Cell7 (fresh_kernel (E := Grid.engine) Grid.sample))
  = Raise (NameError "auth").
Proof.
  rewrite (cell7_needs_the_colab_import (fresh_kernel (E := Grid.engine) Grid.sample) eq_refl).
  reflexivity.
Defined.

(** X19: cell 8 makes one call, for the credentials, with the key file it
    has just put in the environment; whatever the answer, the environment
    variable and [project_id] are set afterwards, and [client] is bound to
    the project exactly when the call is served: after a refusal it keeps
    what it held. *)
Theorem cell8_sets_up_the_session `{E : GeoEngine} (k : kernel) :
  environ (snd (run Cell8 k)) !! "GOOGLE_APPLICATION_CREDENTIALS"
  = Some "/home/jovyan/key-file" /\
  project_id (ns (snd (run Cell8 k))) = Some "isb-cgc-outreach" /\
  (exists answer,
     log (ext (snd (run Cell8 k)))
     = (DefaultCredentials (Some "/home/jovyan/key-file") "isb-cgc-outreach", answer)
       :: log (ext k)) /\
  (fst (run Cell8 k) = Ok tt ->
   client (ns (snd (run Cell8 k))) = Some "isb-cgc-outreach") /\
  (fst (run Cell8 k) <> Ok tt ->
   client (ns (snd (run Cell8 k))) = client (ns k)).
Proof.
  unfold run, cell8, Client, bind, setenv, store, load, getenv, call. simpl.
  rewrite lookup_insert_eq.
  destruct (faults (ext k) (length (log (ext k)))) as [why|]; simpl.
  - repeat split; try (eexists; reflexivity); try discriminate.
    apply lookup_insert_eq.
  - repeat split; try (eexists; reflexivity); try apply lookup_insert_eq.
    intros H. contradiction H. reflexivity.
Qed.
